(** * SysConfigDialog: the preset preview / apply / cancel workflow

    A shallow embedding of [Dialogs::SysConfigDialog] from
    [pcsx2/gui/Dialogs/SysConfigDialog.cpp]: the member functions
    [UpdateGuiForPreset], [AddPresetsControl], [Presets_Toggled],
    [Preset_Scroll], [Apply] and [Cancel].

    The dialog talks to three collaborators whose code lives in other
    translation units: the configuration class [AppConfig], the pages of the
    listbook ([BaseApplicableConfigPanel] and its subclass
    [BaseApplicableConfigPanel_SpecificConfig]) and the main frame
    ([MainEmuFrame]).  Each of them is an interface here (a type class); the
    dialog's functions are written once, over any implementation. *)

From Stdlib Require Import ZArith Bool Lia Sorted.
From stdpp Require Import base list strings.

Open Scope Z_scope.

(** ** AppConfig *)

(** [AppConfig] as this file uses it: the two preset fields it reads and
    writes by name, and every other member ([EmuOptions], [Framerate],
    folders, ...) gathered in [OtherSettings].  [PresetIndex] is a C [int];
    the dialog only copies it, so no arithmetic can wrap and [Z] holds it. *)
Record AppConfig (Settings : Type) : Type := mkAppConfig {
  EnablePresets : bool;
  PresetIndex : Z;
  OtherSettings : Settings
}.
Arguments mkAppConfig {Settings} _ _ _.
Arguments EnablePresets {Settings} _.
Arguments PresetIndex {Settings} _.
Arguments OtherSettings {Settings} _.

(** [conf.EnablePresets = b;] *)
Definition set_EnablePresets {S : Type} (conf : AppConfig S) (b : bool) : AppConfig S :=
  mkAppConfig b (PresetIndex conf) (OtherSettings conf).

(** [conf.PresetIndex = n;] *)
Definition set_PresetIndex {S : Type} (conf : AppConfig S) (n : Z) : AppConfig S :=
  mkAppConfig (EnablePresets conf) n (OtherSettings conf).

(** [wxColor]: default-constructed, or built from a colour name. *)
Inductive wxColor : Type :=
| wxNullColour
| wxColour (name : string).

(** The static members of [AppConfig] the dialog calls.  A C++ member
    function that mutates its object takes the object and returns the new one;
    an out-parameter ([wxString&], [wxColor&]) is taken and returned. *)
Class AppConfigApi : Type := {
  Settings : Type;
  GetMaxPresetIndex : Z;
  (* bool AppConfig::IsOkApplyPreset(int n, bool ignoreMTVU) *)
  IsOkApplyPreset : AppConfig Settings -> Z -> bool -> bool * AppConfig Settings;
  (* static bool isOkGetPresetTextAndColor(int n, wxString& label, wxColor& c) *)
  isOkGetPresetTextAndColor : Z -> string -> wxColor -> bool * (string * wxColor);
  APPLY_FLAG_FROM_PRESET : Z;
  APPLY_FLAG_MANUALLY_PROPAGATE : Z
}.

(** ** The pages of the listbook *)

(** What a preset-aware page does with a configuration it is handed:
    [BaseApplicableConfigPanel_SpecificConfig::ApplyConfigToGui(cfg, flags)]
    updates the page's own widgets; it reads the configuration and assigns
    neither it nor [g_Conf]. *)
Class ConfigPanelApi {Conf : AppConfigApi} : Type := {
  PanelGui : Type;
  Panel_ApplyConfigToGui : PanelGui -> AppConfig Settings -> Z -> PanelGui
}.

(** A page is of class [BaseApplicableConfigPanel] or of its subclass
    [BaseApplicableConfigPanel_SpecificConfig]; the dialog casts every
    [wxNotebookPage] it holds to the former. *)
Inductive Page {Conf : AppConfigApi} {Panels : ConfigPanelApi} : Type :=
| BaseApplicableConfigPanel (gui : PanelGui)
| BaseApplicableConfigPanel_SpecificConfig (gui : PanelGui).

(** ** The main frame *)

(** [MainEmuFrame::ApplyConfigToGui] shows a configuration in the menus
    (reading it, like a page does);
    [MainEmuFrame::CommitPreset_noTrigger] writes what the menus hold into
    [g_Conf] (and is free to change the frame as well). *)
Class MainFrameApi {Conf : AppConfigApi} : Type := {
  MainEmuFrame : Type;
  MainFrame_ApplyConfigToGui : MainEmuFrame -> AppConfig Settings -> Z -> MainEmuFrame;
  CommitPreset_noTrigger : MainEmuFrame -> AppConfig Settings -> MainEmuFrame * AppConfig Settings
}.

(** ** Results of code that can dereference a null pointer *)

Inductive outcome (A : Type) : Type :=
| Returns (a : A)
| NullDeref.
Arguments Returns {A} _.
Arguments NullDeref {A}.

#[export] Instance outcome_ret : MRet outcome := fun A a => Returns a.

#[export] Instance outcome_bind : MBind outcome := fun A B k m =>
  match m with
  | Returns a => k a
  | NullDeref => NullDeref
  end.

(** ** Widgets of the toolkit *)

(** Modelled from the spec: [wxSlider], a control of the windowing toolkit
    (no toolkit code is among the sources).  The control keeps its position
    within the bounds it was constructed with ("slider ranges enforced by the
    UI control's own bounds"): a position outside them is moved to the nearer
    bound. *)
Record wxSlider : Type := mkSlider {
  slider_value : Z;
  slider_min : Z;
  slider_max : Z;
  slider_enabled : bool
}.

Definition slider_clamp (minValue maxValue v : Z) : Z :=
  Z.max minValue (Z.min maxValue v).

(** [new wxSlider(parent, id, value, minValue, maxValue, ...)] *)
Definition wxSlider_new (value minValue maxValue : Z) : wxSlider :=
  mkSlider (slider_clamp minValue maxValue value) minValue maxValue true.

(** The position after the user dragged the thumb (or [SetValue]). *)
Definition wxSlider_SetValue (s : wxSlider) (v : Z) : wxSlider :=
  mkSlider (slider_clamp (slider_min s) (slider_max s) v)
           (slider_min s) (slider_max s) (slider_enabled s).

Definition wxSlider_Enable (s : wxSlider) (b : bool) : wxSlider :=
  mkSlider (slider_value s) (slider_min s) (slider_max s) b.

Definition wxSlider_GetValue (s : wxSlider) : Z := slider_value s.

(** [pxStaticText]: the label next to the slider. *)
Record pxStaticText : Type := mkStaticText {
  text_label : string;
  text_colour : wxColor;
  text_enabled : bool
}.

Definition pxStaticText_SetLabel (t : pxStaticText) (l : string) : pxStaticText :=
  mkStaticText l (text_colour t) (text_enabled t).
Definition pxStaticText_SetForegroundColour (t : pxStaticText) (c : wxColor) : pxStaticText :=
  mkStaticText (text_label t) c (text_enabled t).
Definition pxStaticText_Enable (t : pxStaticText) (b : bool) : pxStaticText :=
  mkStaticText (text_label t) (text_colour t) b.

(** ** The dialog and the state around it *)

Section Dialog.
Context {Conf : AppConfigApi} {Panels : ConfigPanelApi} {Frame : MainFrameApi}.

Abbreviation Config := (AppConfig Settings).

(** [BaseApplicableConfigPanel::IsSpecificConfig()]: the "lame RTTI" that
    tells the two page classes apart. *)
Definition IsSpecificConfig (p : Page) : bool :=
  match p with
  | BaseApplicableConfigPanel _ => false
  | BaseApplicableConfigPanel_SpecificConfig _ => true
  end.

(** The call [page->ApplyConfigToGui(cfg, flags)] on a page cast to
    [BaseApplicableConfigPanel_SpecificConfig]; the dialog makes it only
    where [IsSpecificConfig] answered true. *)
Definition Page_ApplyConfigToGui (p : Page) (cfg : Config) (flags : Z) : Page :=
  match p with
  | BaseApplicableConfigPanel gui => BaseApplicableConfigPanel gui
  | BaseApplicableConfigPanel_SpecificConfig gui =>
      BaseApplicableConfigPanel_SpecificConfig (Panel_ApplyConfigToGui gui cfg flags)
  end.

(** The calls the dialog makes, in order: a record kept beside the program
    state so that "what was handed to whom" can be stated.  The first
    constructor records an entry into [UpdateGuiForPreset] with its
    arguments, the others a call on a collaborator. *)
Inductive Call : Type :=
| Call_UpdateGuiForPreset (presetIndex : Z) (presetsEnabled : bool)
| Call_Page_ApplyConfigToGui (page : nat) (cfg : Config) (flags : Z)
| Call_MainFrame_ApplyConfigToGui (cfg : Config) (flags : Z)
| Call_MainFrame_CommitPreset_noTrigger.

(** The globals: [g_Conf], what [GetMainFramePtr()] returns, and the calls
    made so far. *)
Record World : Type := mkWorld {
  g_Conf : Config;
  MainFramePtr : option MainEmuFrame;
  calls : list Call
}.

(** The members of [SysConfigDialog] these functions use.  [m_listbook] is
    a pointer that may be null; [GetPage(i)] is the lookup in its pages. *)
Record SysConfigDialog : Type := mkDialog {
  m_listbook : option (list Page);
  m_labels : list string;
  m_slider_presets : wxSlider;
  m_check_presets : bool;
  m_msg_preset : pxStaticText
}.

Definition set_listbook (d : SysConfigDialog) (book : list Page) : SysConfigDialog :=
  mkDialog (Some book) (m_labels d) (m_slider_presets d) (m_check_presets d) (m_msg_preset d).
Definition set_slider (d : SysConfigDialog) (s : wxSlider) : SysConfigDialog :=
  mkDialog (m_listbook d) (m_labels d) s (m_check_presets d) (m_msg_preset d).
Definition set_check (d : SysConfigDialog) (b : bool) : SysConfigDialog :=
  mkDialog (m_listbook d) (m_labels d) (m_slider_presets d) b (m_msg_preset d).
Definition set_msg (d : SysConfigDialog) (t : pxStaticText) : SysConfigDialog :=
  mkDialog (m_listbook d) (m_labels d) (m_slider_presets d) (m_check_presets d) t.

Definition record_call (c : Call) (w : World) : World :=
  mkWorld (g_Conf w) (MainFramePtr w) (calls w ++ [c]).

(** [AppConfig::APPLY_FLAG_FROM_PRESET | AppConfig::APPLY_FLAG_MANUALLY_PROPAGATE] *)
Definition preset_flags : Z :=
  Z.lor APPLY_FLAG_FROM_PRESET APPLY_FLAG_MANUALLY_PROPAGATE.

(** The loop of [UpdateGuiForPreset], [for (size_t i = 0; i < pages; ++i)]:
    [todo] iterations are left and the next index is [i].  [GetPage(i)]
    past the last page is a null pointer, and the loop dereferences it. *)
Fixpoint UpdateGuiForPreset_loop (todo i : nat) (preset : Config)
    (book : list Page) (log : list Call) : outcome (list Page * list Call) :=
  match todo with
  | O => Returns (book, log)
  | S todo' =>
      match book !! i with
      | None => NullDeref
      | Some page =>
          if IsSpecificConfig page then
            UpdateGuiForPreset_loop todo' (S i) preset
              (<[i := Page_ApplyConfigToGui page preset preset_flags]> book)
              (log ++ [Call_Page_ApplyConfigToGui i preset preset_flags])
          else
            UpdateGuiForPreset_loop todo' (S i) preset book log
      end
  end.

(** [void SysConfigDialog::UpdateGuiForPreset(int presetIndex, bool presetsEnabled)] *)
Definition UpdateGuiForPreset (d : SysConfigDialog) (presetIndex : Z)
    (presetsEnabled : bool) (w : World) : outcome (SysConfigDialog * World) :=
  let w := record_call (Call_UpdateGuiForPreset presetIndex presetsEnabled) w in
  match m_listbook d with
  | None => Returns (d, w)
  | Some book =>
      let preset := g_Conf w in
      let preset := snd (IsOkApplyPreset preset presetIndex false) in
      let preset := set_EnablePresets preset presetsEnabled in
      let pages := length (m_labels d) in
      '(book, log) ← UpdateGuiForPreset_loop pages 0 preset book (calls w);
      let origEnable := EnablePresets preset in
      let preset := set_EnablePresets preset true in
      let w :=
        match MainFramePtr w with
        | Some frame =>
            mkWorld (g_Conf w)
              (Some (MainFrame_ApplyConfigToGui frame preset preset_flags))
              (log ++ [Call_MainFrame_ApplyConfigToGui preset preset_flags])
        | None => mkWorld (g_Conf w) None log
        end in
      let preset := set_EnablePresets preset origEnable in
      Returns (set_listbook d book, w)
  end.

(** [void SysConfigDialog::AddPresetsControl()]: the three controls and
    their initial state (sizers, tooltips and event bindings left out). *)
Definition AddPresetsControl (d : SysConfigDialog) (w : World) : SysConfigDialog :=
  let slider := wxSlider_new (PresetIndex (g_Conf w)) 0 GetMaxPresetIndex in
  let slider := wxSlider_Enable slider (EnablePresets (g_Conf w)) in
  let check := negb (negb (EnablePresets (g_Conf w))) in
  let '(l, c) := snd (isOkGetPresetTextAndColor (PresetIndex (g_Conf w)) "" (wxColour "Red")) in
  let msg := mkStaticText l wxNullColour true in
  let msg := pxStaticText_Enable msg (EnablePresets (g_Conf w)) in
  let msg := pxStaticText_SetForegroundColour msg c in
  mkDialog (m_listbook d) (m_labels d) slider check msg.

(** [void SysConfigDialog::Presets_Toggled(wxCommandEvent&)] *)
Definition Presets_Toggled (d : SysConfigDialog) (w : World)
    : outcome (SysConfigDialog * World) :=
  let d := set_slider d (wxSlider_Enable (m_slider_presets d) (m_check_presets d)) in
  let d := set_msg d (pxStaticText_Enable (m_msg_preset d) (m_check_presets d)) in
  UpdateGuiForPreset d (wxSlider_GetValue (m_slider_presets d)) (m_check_presets d) w.

(** [void SysConfigDialog::Preset_Scroll(wxScrollEvent&)] *)
Definition Preset_Scroll (d : SysConfigDialog) (w : World)
    : outcome (SysConfigDialog * World) :=
  let '(pl, c) :=
    snd (isOkGetPresetTextAndColor (wxSlider_GetValue (m_slider_presets d)) "" wxNullColour) in
  let d := set_msg d (pxStaticText_SetLabel (m_msg_preset d) pl) in
  let d := set_msg d (pxStaticText_SetForegroundColour (m_msg_preset d) c) in
  UpdateGuiForPreset d (wxSlider_GetValue (m_slider_presets d)) (m_check_presets d) w.

(** [void SysConfigDialog::Apply()] *)
Definition Apply (d : SysConfigDialog) (w : World) : World :=
  let conf := set_EnablePresets (g_Conf w) (m_check_presets d) in
  let conf := set_PresetIndex conf (wxSlider_GetValue (m_slider_presets d)) in
  match MainFramePtr w with
  | Some frame =>
      let '(frame, conf) := CommitPreset_noTrigger frame conf in
      mkWorld conf (Some frame) (calls w ++ [Call_MainFrame_CommitPreset_noTrigger])
  | None => mkWorld conf None (calls w)
  end.

(** [void SysConfigDialog::Cancel()] *)
Definition Cancel (d : SysConfigDialog) (w : World) : World :=
  match MainFramePtr w with
  | Some frame =>
      mkWorld (g_Conf w)
        (Some (MainFrame_ApplyConfigToGui frame (g_Conf w) preset_flags))
        (calls w ++ [Call_MainFrame_ApplyConfigToGui (g_Conf w) preset_flags])
  | None => w
  end.

(** *** The toolkit delivering events *)

(** What the user does with the two controls.  The toolkit first updates
    the control, then runs the handler [AddPresetsControl] bound to it:
    [Preset_Scroll] for the slider ([wxEVT_SCROLL_THUMBTRACK],
    [wxEVT_SCROLL_CHANGED]), [Presets_Toggled] for the check box
    ([wxEVT_CHECKBOX]). *)
Inductive UserAction : Type :=
| DragSlider (position : Z)
| ClickCheckbox.

Definition dispatch (a : UserAction) (d : SysConfigDialog) (w : World)
    : outcome (SysConfigDialog * World) :=
  match a with
  | DragSlider position =>
      Preset_Scroll (set_slider d (wxSlider_SetValue (m_slider_presets d) position)) w
  | ClickCheckbox =>
      Presets_Toggled (set_check d (negb (m_check_presets d))) w
  end.

Fixpoint run (acts : list UserAction) (d : SysConfigDialog) (w : World)
    : outcome (SysConfigDialog * World) :=
  match acts with
  | [] => Returns (d, w)
  | a :: acts' => '(d, w) ← dispatch a d w; run acts' d w
  end.

(** *** Reading the record of calls *)

(** The arguments of the last entry into [UpdateGuiForPreset], if any. *)
Fixpoint last_preview (log : list Call) : option (Z * bool) :=
  match log with
  | [] => None
  | c :: log' =>
      match last_preview log' with
      | Some r => Some r
      | None =>
          match c with
          | Call_UpdateGuiForPreset i e => Some (i, e)
          | _ => None
          end
      end
  end.

(** The configurations handed to the main frame, and those handed to the
    pages (with the page index). *)
Definition menu_snapshots (log : list Call) : list Config :=
  flat_map (fun c => match c with
                     | Call_MainFrame_ApplyConfigToGui cfg _ => [cfg]
                     | _ => []
                     end) log.

Definition panel_snapshots (log : list Call) : list (nat * Config) :=
  flat_map (fun c => match c with
                     | Call_Page_ApplyConfigToGui n cfg _ => [(n, cfg)]
                     | _ => []
                     end) log.

(** The snapshot [UpdateGuiForPreset] builds in its first three
    statements, named for the statements below. *)
Definition preview_snapshot (conf : Config) (presetIndex : Z) (presetsEnabled : bool) : Config :=
  set_EnablePresets (snd (IsOkApplyPreset conf presetIndex false)) presetsEnabled.

(** What one pass of the loop does to a page, and the calls the loop makes
    on the pages [ps] when the first of them has index [i]. *)
Definition deliver (preset : Config) (p : Page) : Page :=
  if IsSpecificConfig p then Page_ApplyConfigToGui p preset preset_flags else p.

Fixpoint page_calls (preset : Config) (i : nat) (ps : list Page) : list Call :=
  match ps with
  | [] => []
  | p :: ps' =>
      (if IsSpecificConfig p
       then [Call_Page_ApplyConfigToGui i preset preset_flags] else [])
      ++ page_calls preset (S i) ps'
  end.

(** The call on the main frame that ends [UpdateGuiForPreset], when there
    is a main frame. *)
Definition menu_call (frame : option MainEmuFrame) (preset : Config) : list Call :=
  match frame with
  | Some _ => [Call_MainFrame_ApplyConfigToGui (set_EnablePresets preset true) preset_flags]
  | None => []
  end.

(** Everything one [UpdateGuiForPreset] adds to the record of calls. *)
Definition preview_calls (book : list Page) (frame : option MainEmuFrame)
    (conf : Config) (presetIndex : Z) (presetsEnabled : bool) : list Call :=
  Call_UpdateGuiForPreset presetIndex presetsEnabled
    :: page_calls (preview_snapshot conf presetIndex presetsEnabled) 0 book
    ++ menu_call frame (preview_snapshot conf presetIndex presetsEnabled).

(** The values [Apply] itself assigns to [g_Conf]. *)
Definition applied_conf (d : SysConfigDialog) (conf : Config) : Config :=
  mkAppConfig (m_check_presets d) (wxSlider_GetValue (m_slider_presets d))
              (OtherSettings conf).

(** What the two preset controls show. *)
Definition widget_values (d : SysConfigDialog) : Z * bool :=
  (wxSlider_GetValue (m_slider_presets d), m_check_presets d).

(** The slider as [AddPresetsControl] constructs it: bounds 0 and
    [GetMaxPresetIndex], position between them. *)
Definition preset_slider_ok (d : SysConfigDialog) : Prop :=
  slider_min (m_slider_presets d) = 0
  /\ slider_max (m_slider_presets d) = GetMaxPresetIndex
  /\ 0 <= slider_value (m_slider_presets d) <= GetMaxPresetIndex.

(** The controls show the arguments of the last [UpdateGuiForPreset], or
    [orig] when there was none. *)
Definition widgets_track_preview (orig : Z * bool) (d : SysConfigDialog) (w : World) : Prop :=
  widget_values d = default orig (last_preview (calls w)).

(** A dialog whose listbook, if there is one, has a page for every label
    ([AddPage] adds the two together). *)
Definition pages_match_labels (d : SysConfigDialog) : Prop :=
  match m_listbook d with
  | None => True
  | Some book => length (m_labels d) = length book
  end.

(** *** Further readings of the dialog and of the record *)

(** How many times [UpdateGuiForPreset] was entered. *)
Fixpoint preview_count (log : list Call) : nat :=
  match log with
  | [] => 0
  | Call_UpdateGuiForPreset _ _ :: log' => S (preview_count log')
  | _ :: log' => preview_count log'
  end.

(** The [flags] argument of a call on a collaborator. *)
Definition call_flags (c : Call) : option Z :=
  match c with
  | Call_Page_ApplyConfigToGui _ _ flags => Some flags
  | Call_MainFrame_ApplyConfigToGui _ flags => Some flags
  | _ => None
  end.

(** The slider and the label are enabled exactly when the box is checked. *)
Definition controls_enabled_as_checked (d : SysConfigDialog) : Prop :=
  slider_enabled (m_slider_presets d) = m_check_presets d
  /\ text_enabled (m_msg_preset d) = m_check_presets d.

(** The label shows the text and colour [isOkGetPresetTextAndColor] gives
    for the slider's position (called on an empty text and on the colour the
    caller starts from: red in [AddPresetsControl], the default colour in
    [Preset_Scroll]). *)
Definition label_describes_slider (d : SysConfigDialog) : Prop :=
  exists c0,
    (text_label (m_msg_preset d), text_colour (m_msg_preset d))
    = snd (isOkGetPresetTextAndColor (wxSlider_GetValue (m_slider_presets d)) "" c0).

(** The class of each page, in order. *)
Definition page_classes (d : SysConfigDialog) : option (list bool) :=
  (fun book : list Page => IsSpecificConfig <$> book) <$> m_listbook d.

End Dialog.

Arguments Page {_ _}.
Arguments World {_ _}.
Arguments SysConfigDialog {_ _}.

(** ** An implementation of the collaborators

    The sources of [AppConfig], of the panels and of [MainEmuFrame] are not
    part of this translation unit.  The instances below follow what the
    dialog's own comments and the specification say about them; the general
    statements hold for every implementation and are run on this one. *)

Module Model.
Local Open Scope string_scope.

(** The settings a preset governs, as far as the comments in
    [UpdateGuiForPreset] name them: the "Patches" menu item, and the
    speed hacks the tooltip of the slider speaks of. *)
Record EmuSettings : Type := mkEmuSettings {
  EnablePatches : bool;
  SpeedhackLevel : Z
}.

(** Modelled from the spec: [AppConfig::IsOkApplyPreset] (AppConfig.cpp is
    not among the sources), "a deterministic, total function: each preset
    index maps to one fixed bundle of field values".  It "always
    applies/enabled" (comment in [UpdateGuiForPreset]): presets are switched
    on and the index is recorded. *)
Definition model_IsOkApplyPreset (conf : AppConfig EmuSettings) (n : Z) (ignoreMTVU : bool)
    : bool * AppConfig EmuSettings :=
  (true, mkAppConfig true n (mkEmuSettings true n)).

(** Modelled from the spec: [AppConfig::isOkGetPresetTextAndColor], "a
    static total function mapping a preset index to a human-readable label
    and a display color/severity tier"; the labels are those of the
    slider's tooltip. *)
Definition model_isOkGetPresetTextAndColor (n : Z) (label : string) (c : wxColor)
    : bool * (string * wxColor) :=
  match n with
  | 0 => (true, ("Safest", wxColour "Blue"))
  | 1 => (true, ("Safe", wxColour "Dark Green"))
  | 2 => (true, ("Balanced", wxColour "Forest Green"))
  | 3 => (true, ("Aggressive", wxColour "Orange"))
  | 4 => (true, ("Very Aggressive", wxColour "Red"))
  | 5 => (true, ("Mostly Harmful", wxColour "Red"))
  | _ => (false, (label, c))
  end.

(** Modelled from the spec: the static data of [AppConfig]: six presets
    (the tooltip lists them), and two distinct flag bits. *)
#[export] Instance appconfig : AppConfigApi := {|
  Settings := EmuSettings;
  GetMaxPresetIndex := 5;
  IsOkApplyPreset := model_IsOkApplyPreset;
  isOkGetPresetTextAndColor := model_isOkGetPresetTextAndColor;
  APPLY_FLAG_FROM_PRESET := 1;
  APPLY_FLAG_MANUALLY_PROPAGATE := 2
|}.

(** Modelled from the spec: a preset-aware panel ("applyPreview(snapshot,
    flags)"): it shows the last configuration it was handed. *)
#[export] Instance panels : ConfigPanelApi := {|
  PanelGui := option (AppConfig EmuSettings);
  Panel_ApplyConfigToGui := fun _ cfg _ => Some cfg
|}.

(** The menus of the main frame: the check mark of the "Patches" item and
    whether the preset-governed items are grayed out. *)
Record Menu : Type := mkMenu {
  menu_patches_checked : bool;
  menu_grayed : bool
}.

(** Modelled from the spec: [MainEmuFrame] (gui/MainFrame.cpp is not among
    the sources).  [ApplyConfigToGui] shows the configuration in the menus
    and grays the preset-governed items when presets are enabled;
    [CommitPreset_noTrigger] "writes the presets values it holds to g_Conf"
    and touches neither [PresetIndex] nor [EnablePresets], which only the
    dialog writes. *)
#[export] Instance frame : MainFrameApi := {|
  MainEmuFrame := Menu;
  MainFrame_ApplyConfigToGui := fun _ cfg _ =>
    mkMenu (EnablePatches (OtherSettings cfg)) (EnablePresets cfg);
  CommitPreset_noTrigger := fun m conf =>
    (m, mkAppConfig (EnablePresets conf) (PresetIndex conf)
          (mkEmuSettings (menu_patches_checked m) (SpeedhackLevel (OtherSettings conf))))
|}.

(** The eight pages the constructor of [SysConfigDialog] adds, by label;
    the first two (BIOS, Folders) are not preset-aware here. *)
Definition labels : list string :=
  ["BIOS"; "Folders"; "EE/IOP"; "VUs"; "GS"; "GS Window"; "Speedhacks"; "Game Fixes"].

Definition book : list Page :=
  [BaseApplicableConfigPanel None; BaseApplicableConfigPanel None;
   BaseApplicableConfigPanel_SpecificConfig None;
   BaseApplicableConfigPanel_SpecificConfig None;
   BaseApplicableConfigPanel_SpecificConfig None;
   BaseApplicableConfigPanel_SpecificConfig None;
   BaseApplicableConfigPanel_SpecificConfig None;
   BaseApplicableConfigPanel_SpecificConfig None].

(** A store holding preset 1, presets enabled or not, patches off. *)
Definition store (enabled : bool) : AppConfig EmuSettings :=
  mkAppConfig enabled 1 (mkEmuSettings false 0).

Definition world (enabled : bool) : World :=
  mkWorld (store enabled) (Some (mkMenu false enabled)) [].

Definition world_without_frame : World :=
  mkWorld (store true) None [].

(** The dialog with its listbook and before [AddPresetsControl] (the three
    controls hold placeholders), and as constructed over [world enabled]. *)
Definition shell : SysConfigDialog :=
  mkDialog (Some book) labels (wxSlider_new 0 0 0) false (mkStaticText "" wxNullColour true).

Definition dialog (enabled : bool) : SysConfigDialog :=
  AddPresetsControl shell (world enabled).

(** A dialog whose listbook was never created. *)
Definition dialog_without_listbook : SysConfigDialog :=
  mkDialog None [] (wxSlider_new 1 0 5) true (mkStaticText "" wxNullColour true).

End Model.

(** * Properties *)

Section Properties.
Context {Conf : AppConfigApi} {Panels : ConfigPanelApi} {Frame : MainFrameApi}.

Abbreviation Config := (AppConfig Settings).

Implicit Types (d : SysConfigDialog) (w : World) (book : list Page)
  (conf preset : Config) (log : list Call).

(** ** The loop over the pages *)

Lemma deliver_specific preset p :
  IsSpecificConfig p = true ->
  deliver preset p = Page_ApplyConfigToGui p preset preset_flags.
Proof. intros Hs. unfold deliver. now rewrite Hs. Qed.

Lemma deliver_other preset p :
  IsSpecificConfig p = false -> deliver preset p = p.
Proof. intros Hs. unfold deliver. now rewrite Hs. Qed.

Lemma IsSpecificConfig_deliver preset p :
  IsSpecificConfig (deliver preset p) = IsSpecificConfig p.
Proof. now destruct p. Qed.

(** With [done] the pages already visited and [rest] those ahead, [todo]
    iterations deliver the snapshot to the first [todo] pages of [rest]. *)
Lemma UpdateGuiForPreset_loop_spec preset todo :
  forall done rest log,
    (todo <= length rest)%nat ->
    UpdateGuiForPreset_loop todo (length done) preset (done ++ rest) log
    = Returns (done ++ (deliver preset <$> take todo rest) ++ drop todo rest,
               log ++ page_calls preset (length done) (take todo rest)).
Proof.
  induction todo as [|todo IH]; intros done rest log Hlen; simpl.
  - rewrite !app_nil_r. reflexivity.
  - destruct rest as [|p rest]; simpl in Hlen; [lia|].
    rewrite list_lookup_middle by reflexivity.
    assert (Hstep : forall q, done ++ q :: rest = (done ++ [q]) ++ rest)
      by (intros q; now rewrite <- app_assoc).
    assert (Hidx : S (length done) = length (done ++ [p]))
      by (rewrite length_app; simpl; lia).
    destruct (IsSpecificConfig p) eqn:Hp.
    + rewrite insert_app_r_alt by lia.
      replace (length done - length done)%nat with 0%nat by lia. simpl.
      rewrite (Hstep (Page_ApplyConfigToGui p preset preset_flags)).
      replace (S (length done))
        with (length (done ++ [Page_ApplyConfigToGui p preset preset_flags]))
        by (rewrite length_app; simpl; lia).
      rewrite IH by lia.
      rewrite (deliver_specific _ _ Hp), length_app. simpl.
      rewrite <- !app_assoc. simpl.
      replace (length done + 1)%nat with (S (length done)) by lia.
      rewrite Hp. reflexivity.
    + rewrite (Hstep p), Hidx.
      rewrite IH by lia.
      rewrite <- Hidx, <- !app_assoc. simpl.
      unfold deliver at 2. rewrite Hp. reflexivity.
Qed.

Lemma UpdateGuiForPreset_loop_all preset book log :
  UpdateGuiForPreset_loop (length book) 0 preset book log
  = Returns (deliver preset <$> book, log ++ page_calls preset 0 book).
Proof.
  pose proof (UpdateGuiForPreset_loop_spec preset (length book) [] book log) as Hl.
  simpl in Hl. rewrite Hl by lia.
  rewrite take_ge, drop_ge, app_nil_r by lia. reflexivity.
Qed.

(** A label without a page makes the loop dereference a null pointer. *)
Lemma UpdateGuiForPreset_loop_short preset todo :
  forall done rest log,
    (length rest < todo)%nat ->
    UpdateGuiForPreset_loop todo (length done) preset (done ++ rest) log = NullDeref.
Proof.
  induction todo as [|todo IH]; intros done rest log Hlen; simpl; [lia|].
  destruct rest as [|p rest].
  - rewrite app_nil_r, lookup_ge_None_2 by lia. reflexivity.
  - simpl in Hlen. rewrite list_lookup_middle by reflexivity.
    destruct (IsSpecificConfig p).
    + rewrite insert_app_r_alt by lia.
      replace (length done - length done)%nat with 0%nat by lia. simpl.
      replace (done ++ Page_ApplyConfigToGui p preset preset_flags :: rest)
        with ((done ++ [Page_ApplyConfigToGui p preset preset_flags]) ++ rest)
        by now rewrite <- app_assoc.
      replace (S (length done))
        with (length (done ++ [Page_ApplyConfigToGui p preset preset_flags]))
        by (rewrite length_app; simpl; lia).
      apply IH. lia.
    + replace (done ++ p :: rest) with ((done ++ [p]) ++ rest)
        by now rewrite <- app_assoc.
      replace (S (length done)) with (length (done ++ [p]))
        by (rewrite length_app; simpl; lia).
      apply IH. lia.
Qed.

(** ** Reading the record of calls *)

Lemma menu_snapshots_app log1 log2 :
  menu_snapshots (log1 ++ log2) = menu_snapshots log1 ++ menu_snapshots log2.
Proof. apply flat_map_app. Qed.

Lemma panel_snapshots_app log1 log2 :
  panel_snapshots (log1 ++ log2) = panel_snapshots log1 ++ panel_snapshots log2.
Proof. apply flat_map_app. Qed.

Lemma menu_snapshots_page_calls preset i ps :
  menu_snapshots (page_calls preset i ps) = [].
Proof.
  revert i. induction ps as [|p ps IH]; intros i; simpl; [reflexivity|].
  rewrite menu_snapshots_app, IH. now destruct (IsSpecificConfig p).
Qed.

Lemma panel_snapshots_menu_call frame preset :
  panel_snapshots (menu_call frame preset) = [].
Proof. now destruct frame. Qed.

(** The pages that are handed the snapshot are the preset-aware ones, and
    what they are handed is the snapshot. *)
Lemma in_panel_snapshots_page_calls preset n c :
  forall ps i,
    In (n, c) (panel_snapshots (page_calls preset i ps))
    <-> c = preset
        /\ exists p, (i <= n)%nat /\ ps !! (n - i)%nat = Some p
                     /\ IsSpecificConfig p = true.
Proof.
  induction ps as [|p ps IH]; intros i; simpl.
  - split; [intros []|]. intros (_ & p & _ & Hp & _). discriminate.
  - rewrite panel_snapshots_app, in_app_iff, IH. split.
    + intros [Hin | (-> & q & Hi & Hq & Hs)].
      * destruct (IsSpecificConfig p) eqn:Hp; simpl in Hin; [|contradiction].
        destruct Hin as [Heq|[]]. injection Heq as <- <-.
        split; [reflexivity|]. exists p.
        replace (i - i)%nat with 0%nat by lia. auto.
      * split; [reflexivity|]. exists q. split; [lia|]. split; [|assumption].
        replace (n - i)%nat with (S (n - S i)) by lia. assumption.
    + intros (-> & q & Hi & Hq & Hs).
      destruct (decide (n = i)) as [->|Hne].
      * left. replace (i - i)%nat with 0%nat in Hq by lia.
        simpl in Hq. injection Hq as ->. rewrite Hs. now left.
      * right. split; [reflexivity|]. exists q. split; [lia|]. split; [|assumption].
        replace (n - i)%nat with (S (n - S i)) in Hq by lia. assumption.
Qed.

Lemma last_preview_app log1 log2 :
  last_preview (log1 ++ log2)
  = match last_preview log2 with
    | Some r => Some r
    | None => last_preview log1
    end.
Proof.
  induction log1 as [|c log1 IH]; simpl.
  - now destruct (last_preview log2).
  - rewrite IH. now destruct (last_preview log2).
Qed.

Lemma last_preview_page_calls preset frame :
  forall ps i, last_preview (page_calls preset i ps ++ menu_call frame preset) = None.
Proof.
  induction ps as [|p ps IH]; intros i; simpl.
  - now destruct frame.
  - destruct (IsSpecificConfig p); simpl; now rewrite IH.
Qed.

Lemma last_preview_preview_calls log book frame conf i e :
  last_preview (log ++ preview_calls book frame conf i e) = Some (i, e).
Proof.
  rewrite last_preview_app. unfold preview_calls. simpl.
  now rewrite last_preview_page_calls.
Qed.

(** ** [UpdateGuiForPreset], in closed form *)

Lemma UpdateGuiForPreset_no_listbook d i e w :
  m_listbook d = None ->
  UpdateGuiForPreset d i e w
  = Returns (d, record_call (Call_UpdateGuiForPreset i e) w).
Proof. intros Hb. unfold UpdateGuiForPreset. now rewrite Hb. Qed.

Lemma UpdateGuiForPreset_returns d i e w book :
  m_listbook d = Some book ->
  length (m_labels d) = length book ->
  UpdateGuiForPreset d i e w
  = Returns
      (set_listbook d (deliver (preview_snapshot (g_Conf w) i e) <$> book),
       mkWorld (g_Conf w)
         ((fun frame => MainFrame_ApplyConfigToGui frame
             (set_EnablePresets (preview_snapshot (g_Conf w) i e) true) preset_flags)
            <$> MainFramePtr w)
         (calls w ++ preview_calls book (MainFramePtr w) (g_Conf w) i e)).
Proof.
  intros Hb Hlen. unfold UpdateGuiForPreset. rewrite Hb, Hlen.
  rewrite UpdateGuiForPreset_loop_all. unfold preview_calls, preview_snapshot.
  destruct w as [conf [frame|] log]; simpl;
    rewrite <- ?app_assoc; simpl; rewrite ?app_nil_r; reflexivity.
Qed.

(** With more labels than pages the function does not return. *)
Lemma UpdateGuiForPreset_null_page d i e w book :
  m_listbook d = Some book ->
  (length book < length (m_labels d))%nat ->
  UpdateGuiForPreset d i e w = NullDeref.
Proof.
  intros Hb Hlen. unfold UpdateGuiForPreset. rewrite Hb.
  pose proof (UpdateGuiForPreset_loop_short
                (preview_snapshot (g_Conf w) i e) (length (m_labels d)) [] book) as Hl.
  simpl in Hl. unfold preview_snapshot in Hl. simpl.
  rewrite Hl by lia. reflexivity.
Qed.

(** The function returns once every label has its page, and it keeps that
    so; it never assigns [g_Conf], the slider or the check box. *)
Lemma UpdateGuiForPreset_total d i e w :
  pages_match_labels d ->
  exists d' w',
    UpdateGuiForPreset d i e w = Returns (d', w')
    /\ pages_match_labels d'
    /\ g_Conf w' = g_Conf w
    /\ m_slider_presets d' = m_slider_presets d
    /\ m_check_presets d' = m_check_presets d
    /\ last_preview (calls w') = Some (i, e).
Proof.
  unfold pages_match_labels. intros Hwf.
  destruct (m_listbook d) as [book|] eqn:Hb.
  - rewrite (UpdateGuiForPreset_returns d i e w book Hb Hwf).
    eexists _, _. split; [reflexivity|]. simpl.
    rewrite length_fmap. repeat split; try assumption.
    apply last_preview_preview_calls.
  - rewrite (UpdateGuiForPreset_no_listbook d i e w Hb).
    eexists _, _. split; [reflexivity|]. rewrite Hb. simpl.
    repeat split. rewrite last_preview_app. reflexivity.
Qed.

(** ** The handlers and the event loop *)

Lemma slider_clamp_in_range lo hi v :
  lo <= hi -> lo <= slider_clamp lo hi v <= hi.
Proof. unfold slider_clamp. lia. Qed.

Lemma slider_clamp_id lo hi v :
  lo <= v <= hi -> slider_clamp lo hi v = v.
Proof. unfold slider_clamp. lia. Qed.

Lemma AddPresetsControl_slider d w :
  m_slider_presets (AddPresetsControl d w)
  = wxSlider_Enable (wxSlider_new (PresetIndex (g_Conf w)) 0 GetMaxPresetIndex)
                    (EnablePresets (g_Conf w)).
Proof.
  unfold AddPresetsControl.
  now destruct (snd (isOkGetPresetTextAndColor _ _ _)).
Qed.

Lemma AddPresetsControl_check d w :
  m_check_presets (AddPresetsControl d w) = EnablePresets (g_Conf w).
Proof.
  unfold AddPresetsControl.
  destruct (snd (isOkGetPresetTextAndColor _ _ _)). simpl.
  apply negb_involutive.
Qed.

Lemma AddPresetsControl_pages d w :
  pages_match_labels d -> pages_match_labels (AddPresetsControl d w).
Proof.
  unfold pages_match_labels, AddPresetsControl.
  now destruct (snd (isOkGetPresetTextAndColor _ _ _)).
Qed.

Lemma AddPresetsControl_slider_ok d w :
  0 <= GetMaxPresetIndex -> preset_slider_ok (AddPresetsControl d w).
Proof.
  intros Hmax. unfold preset_slider_ok. rewrite AddPresetsControl_slider. simpl.
  repeat split; try apply slider_clamp_in_range; assumption.
Qed.

Lemma AddPresetsControl_values d w :
  0 <= PresetIndex (g_Conf w) <= GetMaxPresetIndex ->
  widget_values (AddPresetsControl d w)
  = (PresetIndex (g_Conf w), EnablePresets (g_Conf w)).
Proof.
  intros Hr. unfold widget_values.
  rewrite AddPresetsControl_slider, AddPresetsControl_check. simpl.
  now rewrite slider_clamp_id.
Qed.

(** One user action: the handler returns, the store is as before, and the
    controls show what [UpdateGuiForPreset] was called with. *)
Lemma dispatch_spec a d w :
  pages_match_labels d ->
  exists d' w',
    dispatch a d w = Returns (d', w')
    /\ pages_match_labels d'
    /\ (0 <= GetMaxPresetIndex -> preset_slider_ok d -> preset_slider_ok d')
    /\ g_Conf w' = g_Conf w
    /\ last_preview (calls w') = Some (widget_values d').
Proof.
  intros Hwf.
  destruct a as [position|]; simpl.
  - unfold Preset_Scroll.
    destruct (snd (isOkGetPresetTextAndColor _ _ _)) as [pl c].
    match goal with |- context [UpdateGuiForPreset ?d1 ?i ?e w] =>
      destruct (UpdateGuiForPreset_total d1 i e w) as (d' & w' & -> & Hwf' & Hc & Hs & Hk & Hl)
    end; [exact Hwf|].
    exists d', w'. split; [reflexivity|]. split; [exact Hwf'|].
    split; [|split; [exact Hc|]].
    + intros Hpos (Hmin & Hmax & Hval).
      unfold preset_slider_ok. rewrite Hs. simpl. rewrite Hmin, Hmax.
      repeat split; try apply slider_clamp_in_range; assumption.
    + rewrite Hl. unfold widget_values. rewrite Hs, Hk. reflexivity.
  - unfold Presets_Toggled.
    match goal with |- context [UpdateGuiForPreset ?d1 ?i ?e w] =>
      destruct (UpdateGuiForPreset_total d1 i e w) as (d' & w' & -> & Hwf' & Hc & Hs & Hk & Hl)
    end; [exact Hwf|].
    exists d', w'. split; [reflexivity|]. split; [exact Hwf'|].
    split; [|split; [exact Hc|]].
    + intros Hpos Hok. unfold preset_slider_ok. rewrite Hs. exact Hok.
    + rewrite Hl. unfold widget_values. rewrite Hs, Hk. reflexivity.
Qed.

(** Any sequence of user actions: the event loop returns, never assigns
    [g_Conf], keeps the slider within its bounds, and leaves the controls
    showing the arguments of the last preview. *)
Lemma run_spec orig acts :
  forall d w,
    pages_match_labels d ->
    exists d' w',
      run acts d w = Returns (d', w')
      /\ pages_match_labels d'
      /\ (0 <= GetMaxPresetIndex -> preset_slider_ok d -> preset_slider_ok d')
      /\ g_Conf w' = g_Conf w
      /\ (widgets_track_preview orig d w -> widgets_track_preview orig d' w').
Proof.
  induction acts as [|a acts IH]; intros d w Hwf; simpl.
  - exists d, w. auto.
  - destruct (dispatch_spec a d w Hwf)
      as (d1 & w1 & -> & Hwf1 & Hok1 & Hc1 & Hl1). simpl.
    destruct (IH d1 w1 Hwf1) as (d' & w' & Hrun & Hwf' & Hok' & Hc' & Htr').
    exists d', w'. split; [exact Hrun|].
    split; [exact Hwf'|]. split; [auto|].
    split; [now rewrite Hc'|].
    intros _. apply Htr'. unfold widgets_track_preview. now rewrite Hl1.
Qed.

(** ** Replaying a preview *)

Lemma page_calls_deliver preset preset' :
  forall ps i,
    page_calls preset i (deliver preset' <$> ps) = page_calls preset i ps.
Proof.
  induction ps as [|p ps IH]; intros i; simpl; [reflexivity|].
  now rewrite IsSpecificConfig_deliver, IH.
Qed.

Lemma menu_call_fmap (f : MainEmuFrame -> MainEmuFrame) frame preset :
  menu_call (f <$> frame) preset = menu_call frame preset.
Proof. now destruct frame. Qed.

Lemma menu_snapshots_preview_calls book frame conf i e :
  menu_snapshots (preview_calls book frame conf i e)
  = match frame with
    | Some _ => [set_EnablePresets (preview_snapshot conf i e) true]
    | None => []
    end.
Proof.
  unfold preview_calls. simpl.
  rewrite menu_snapshots_app, menu_snapshots_page_calls. now destruct frame.
Qed.

Lemma panel_snapshots_preview_calls book frame conf i e :
  panel_snapshots (preview_calls book frame conf i e)
  = panel_snapshots (page_calls (preview_snapshot conf i e) 0 book).
Proof.
  unfold preview_calls. simpl.
  now rewrite panel_snapshots_app, panel_snapshots_menu_call, app_nil_r.
Qed.

(** ** The claims *)

(** C1. [UpdateGuiForPreset] (for every index and flag, the valid ones
    included), [Cancel] and any sequence of slider and check-box events
    return with [g_Conf] equal to what it was before; of the dialog's functions
    only [Apply] assigns it. *)
Theorem preview_and_cancel_keep_store d w i e acts :
  pages_match_labels d ->
  (exists d' w', UpdateGuiForPreset d i e w = Returns (d', w') /\ g_Conf w' = g_Conf w)
  /\ g_Conf (Cancel d w) = g_Conf w
  /\ (exists d' w', run acts d w = Returns (d', w') /\ g_Conf w' = g_Conf w).
Proof.
  intros Hwf. split; [|split].
  - destruct (UpdateGuiForPreset_total d i e w Hwf) as (d' & w' & Hr & _ & Hc & _).
    now exists d', w'.
  - unfold Cancel. now destruct (MainFramePtr w).
  - destruct (run_spec (widget_values d) acts d w Hwf) as (d' & w' & Hr & _ & _ & Hc & _).
    now exists d', w'.
Qed.

(** C3. The configuration [UpdateGuiForPreset] hands to the main frame has
    [EnablePresets] true whatever flag the caller passed, and agrees with the
    configuration handed to the pages on every other field. *)
Theorem menu_snapshot_enables_presets d w i e :
  pages_match_labels d ->
  exists d' w' evs,
    UpdateGuiForPreset d i e w = Returns (d', w')
    /\ calls w' = calls w ++ evs
    /\ (forall c, In c (menu_snapshots evs) ->
          EnablePresets c = true
          /\ PresetIndex c = PresetIndex (preview_snapshot (g_Conf w) i e)
          /\ OtherSettings c = OtherSettings (preview_snapshot (g_Conf w) i e))
    /\ (forall n c, In (n, c) (panel_snapshots evs) -> c = preview_snapshot (g_Conf w) i e)
    /\ (forall book frame,
          m_listbook d = Some book -> MainFramePtr w = Some frame ->
          menu_snapshots evs = [set_EnablePresets (preview_snapshot (g_Conf w) i e) true]
          /\ MainFramePtr w'
             = Some (MainFrame_ApplyConfigToGui frame
                       (set_EnablePresets (preview_snapshot (g_Conf w) i e) true)
                       preset_flags)).
Proof.
  unfold pages_match_labels. intros Hwf.
  destruct (m_listbook d) as [book|] eqn:Hb.
  - rewrite (UpdateGuiForPreset_returns d i e w book Hb Hwf).
    eexists _, _, _. split; [reflexivity|]. split; [reflexivity|].
    rewrite menu_snapshots_preview_calls, panel_snapshots_preview_calls.
    split; [|split].
    + intros c Hin. destruct (MainFramePtr w); simpl in Hin; [|contradiction].
      destruct Hin as [<-|[]]. auto.
    + intros n c Hin. now apply in_panel_snapshots_page_calls in Hin.
    + intros book' frame [= <-] Hf. rewrite Hf. auto.
  - rewrite (UpdateGuiForPreset_no_listbook d i e w Hb).
    eexists _, _, _. split; [reflexivity|]. split; [reflexivity|]. simpl.
    split; [intros c []|]. split; [intros n c []|]. intros book frame [=].
Qed.

(** C5. The configuration handed to the pages is built in three steps: a
    copy of [g_Conf], [IsOkApplyPreset] of the index on that copy, then
    [EnablePresets] overwritten with the caller's flag.  Every preset-aware
    page is handed exactly that; with an [IsOkApplyPreset] that records a
    valid index it has [PresetIndex = i], [EnablePresets = e] and the other
    fields of the preset. *)
Theorem panel_snapshot_is_preset_then_flag d w i e book :
  m_listbook d = Some book ->
  length (m_labels d) = length book ->
  0 <= i <= GetMaxPresetIndex ->
  (forall conf n, 0 <= n <= GetMaxPresetIndex ->
     PresetIndex (snd (IsOkApplyPreset conf n false)) = n) ->
  exists d' w' evs,
    UpdateGuiForPreset d i e w = Returns (d', w')
    /\ calls w' = calls w ++ evs
    /\ (forall n p, book !! n = Some p -> IsSpecificConfig p = true ->
          In (n, set_EnablePresets (snd (IsOkApplyPreset (g_Conf w) i false)) e)
             (panel_snapshots evs))
    /\ (forall n c, In (n, c) (panel_snapshots evs) ->
          c = set_EnablePresets (snd (IsOkApplyPreset (g_Conf w) i false)) e
          /\ PresetIndex c = i
          /\ EnablePresets c = e
          /\ OtherSettings c = OtherSettings (snd (IsOkApplyPreset (g_Conf w) i false))).
Proof.
  intros Hb Hlen Hi Hidx.
  rewrite (UpdateGuiForPreset_returns d i e w book Hb Hlen).
  eexists _, _, _. split; [reflexivity|]. split; [reflexivity|].
  rewrite panel_snapshots_preview_calls. split.
  - intros n p Hp Hs. apply in_panel_snapshots_page_calls.
    split; [reflexivity|]. exists p. split; [lia|].
    now replace (n - 0)%nat with n by lia.
  - intros n c Hin. apply in_panel_snapshots_page_calls in Hin as [-> _].
    unfold preview_snapshot. simpl. auto.
Qed.

(** C6. A page of the listbook is handed the snapshot if and only if it is
    preset-aware ([IsSpecificConfig]); such a page becomes what its
    [ApplyConfigToGui] makes of it, and every other page stays as it was. *)
Theorem snapshot_reaches_exactly_specific_pages d w i e book :
  m_listbook d = Some book ->
  length (m_labels d) = length book ->
  exists d' w' evs book',
    UpdateGuiForPreset d i e w = Returns (d', w')
    /\ calls w' = calls w ++ evs
    /\ m_listbook d' = Some book'
    /\ length book' = length book
    /\ forall n p, book !! n = Some p ->
         ((exists c, In (n, c) (panel_snapshots evs)) <-> IsSpecificConfig p = true)
         /\ (IsSpecificConfig p = true ->
              In (n, preview_snapshot (g_Conf w) i e) (panel_snapshots evs)
              /\ book' !! n = Some (Page_ApplyConfigToGui p
                                      (preview_snapshot (g_Conf w) i e) preset_flags))
         /\ (IsSpecificConfig p = false -> book' !! n = Some p).
Proof.
  intros Hb Hlen.
  rewrite (UpdateGuiForPreset_returns d i e w book Hb Hlen).
  eexists _, _, _, _. split; [reflexivity|]. split; [reflexivity|].
  split; [reflexivity|]. split; [apply length_fmap|].
  intros n p Hp. rewrite panel_snapshots_preview_calls.
  assert (Hin : IsSpecificConfig p = true ->
                In (n, preview_snapshot (g_Conf w) i e)
                   (panel_snapshots (page_calls (preview_snapshot (g_Conf w) i e) 0 book))).
  { intros Hs. apply in_panel_snapshots_page_calls.
    split; [reflexivity|]. exists p. split; [lia|].
    now replace (n - 0)%nat with n by lia. }
  split; [|split].
  - split; [|eauto].
    intros (c & Hc). apply in_panel_snapshots_page_calls in Hc as (_ & q & _ & Hq & Hs).
    replace (n - 0)%nat with n in Hq by lia. congruence.
  - intros Hs. split; [auto|].
    rewrite list_lookup_fmap, Hp. simpl. now rewrite deliver_specific.
  - intros Hs. rewrite list_lookup_fmap, Hp. simpl. now rewrite deliver_other.
Qed.

(** C7. Two calls of [UpdateGuiForPreset] in a row with the same arguments
    both return and make the same calls with the same configurations: the
    pages and the main frame are handed identical snapshots both times. *)
Theorem preview_twice_same_broadcasts d w i e :
  pages_match_labels d ->
  exists d1 w1 d2 w2 evs,
    UpdateGuiForPreset d i e w = Returns (d1, w1)
    /\ UpdateGuiForPreset d1 i e w1 = Returns (d2, w2)
    /\ calls w1 = calls w ++ evs
    /\ calls w2 = calls w1 ++ evs.
Proof.
  unfold pages_match_labels. intros Hwf.
  destruct (m_listbook d) as [book|] eqn:Hb.
  - rewrite (UpdateGuiForPreset_returns d i e w book Hb Hwf).
    eexists _, _, _, _, _. split; [reflexivity|].
    split; [|split; [reflexivity|]].
    + apply UpdateGuiForPreset_returns; [reflexivity|].
      simpl. now rewrite length_fmap.
    + simpl. f_equal. unfold preview_calls.
      now rewrite page_calls_deliver, menu_call_fmap.
  - rewrite (UpdateGuiForPreset_no_listbook d i e w Hb).
    eexists _, _, _, _, _. split; [reflexivity|].
    split; [|split; [reflexivity|]].
    + now apply UpdateGuiForPreset_no_listbook.
    + reflexivity.
Qed.

(** C10. With a null [m_listbook], [UpdateGuiForPreset] returns at once for
    every index and flag: the dialog, the store and the main frame are as
    they were and nothing was handed to a page or to the main frame.  With
    no main frame, [Apply] only makes its two assignments, [Cancel] does
    nothing, and [UpdateGuiForPreset] returns without a call on the frame. *)
Theorem missing_collaborators_are_skipped d w i e :
  (m_listbook d = None ->
     exists w',
       UpdateGuiForPreset d i e w = Returns (d, w')
       /\ g_Conf w' = g_Conf w
       /\ MainFramePtr w' = MainFramePtr w
       /\ calls w' = calls w ++ [Call_UpdateGuiForPreset i e]
       /\ panel_snapshots (calls w') = panel_snapshots (calls w)
       /\ menu_snapshots (calls w') = menu_snapshots (calls w))
  /\ (MainFramePtr w = None ->
       Apply d w = mkWorld (applied_conf d (g_Conf w)) None (calls w)
       /\ Cancel d w = w)
  /\ (MainFramePtr w = None -> pages_match_labels d ->
       exists d' w',
         UpdateGuiForPreset d i e w = Returns (d', w')
         /\ MainFramePtr w' = None
         /\ menu_snapshots (calls w') = menu_snapshots (calls w)).
Proof.
  split; [|split].
  - intros Hb. rewrite (UpdateGuiForPreset_no_listbook d i e w Hb).
    eexists. split; [reflexivity|]. simpl.
    rewrite panel_snapshots_app, menu_snapshots_app. simpl.
    now rewrite !app_nil_r.
  - intros Hf. unfold Apply, Cancel. now rewrite Hf.
  - unfold pages_match_labels. intros Hf Hwf.
    destruct (m_listbook d) as [book|] eqn:Hb.
    + rewrite (UpdateGuiForPreset_returns d i e w book Hb Hwf).
      eexists _, _. split; [reflexivity|]. simpl. rewrite Hf. split; [reflexivity|].
      rewrite menu_snapshots_app, menu_snapshots_preview_calls. apply app_nil_r.
    + rewrite (UpdateGuiForPreset_no_listbook d i e w Hb).
      eexists _, _. split; [reflexivity|]. simpl. split; [exact Hf|].
      rewrite menu_snapshots_app. apply app_nil_r.
Qed.

(** C2. Open the dialog on a store whose index is in range, let the user
    move the slider and click the check box any number of times, then
    [Apply]: [g_Conf] holds the index and the flag of the last
    [UpdateGuiForPreset], or those it held at the start when there was none.
    When there is a main frame, [Apply] ends by calling its
    [CommitPreset_noTrigger] on the store, a call that by assumption leaves
    the two preset fields alone. *)
Theorem apply_writes_last_preview d0 w0 acts :
  pages_match_labels d0 ->
  last_preview (calls w0) = None ->
  0 <= PresetIndex (g_Conf w0) <= GetMaxPresetIndex ->
  (forall frame conf,
     PresetIndex (snd (CommitPreset_noTrigger frame conf)) = PresetIndex conf
     /\ EnablePresets (snd (CommitPreset_noTrigger frame conf)) = EnablePresets conf) ->
  exists d w,
    run acts (AddPresetsControl d0 w0) w0 = Returns (d, w)
    /\ (PresetIndex (g_Conf (Apply d w)), EnablePresets (g_Conf (Apply d w)))
       = default (PresetIndex (g_Conf w0), EnablePresets (g_Conf w0))
                 (last_preview (calls w))
    /\ (forall frame, MainFramePtr w = Some frame ->
          calls (Apply d w) = calls w ++ [Call_MainFrame_CommitPreset_noTrigger]
          /\ MainFramePtr (Apply d w)
             = Some (fst (CommitPreset_noTrigger frame (applied_conf d (g_Conf w))))
          /\ g_Conf (Apply d w)
             = snd (CommitPreset_noTrigger frame (applied_conf d (g_Conf w)))).
Proof.
  intros Hwf Hnone Hrange Hkeep.
  destruct (run_spec (PresetIndex (g_Conf w0), EnablePresets (g_Conf w0)) acts
              (AddPresetsControl d0 w0) w0 (AddPresetsControl_pages d0 w0 Hwf))
    as (d & w & Hrun & _ & _ & _ & Htr).
  exists d, w. split; [exact Hrun|].
  assert (Hshown : widget_values d
                   = default (PresetIndex (g_Conf w0), EnablePresets (g_Conf w0))
                             (last_preview (calls w))).
  { apply Htr. unfold widgets_track_preview.
    rewrite Hnone. simpl. now apply AddPresetsControl_values. }
  rewrite <- Hshown. unfold Apply, widget_values. split.
  - destruct (MainFramePtr w) as [frame|]; [|reflexivity].
    destruct (Hkeep frame
                (set_PresetIndex (set_EnablePresets (g_Conf w) (m_check_presets d))
                   (wxSlider_GetValue (m_slider_presets d)))) as [Hi He].
    destruct (CommitPreset_noTrigger frame _) as [frame' conf'].
    simpl in *. now rewrite Hi, He.
  - intros frame ->. unfold applied_conf, set_PresetIndex, set_EnablePresets. simpl.
    now destruct (CommitPreset_noTrigger frame _).
Qed.

(** C8. The slider is constructed with the range 0 to [GetMaxPresetIndex]
    and stays within it under every user action, so the index [Apply] assigns
    to [g_Conf->PresetIndex] lies in that range, and so does the index in
    [g_Conf] when [Apply] returns (the main frame's commit leaving
    [PresetIndex] alone). *)
Theorem apply_keeps_preset_index_in_range d0 w0 acts :
  pages_match_labels d0 ->
  0 <= GetMaxPresetIndex ->
  (forall frame conf,
     PresetIndex (snd (CommitPreset_noTrigger frame conf)) = PresetIndex conf) ->
  exists d w,
    run acts (AddPresetsControl d0 w0) w0 = Returns (d, w)
    /\ PresetIndex (applied_conf d (g_Conf w)) = wxSlider_GetValue (m_slider_presets d)
    /\ 0 <= wxSlider_GetValue (m_slider_presets d) <= GetMaxPresetIndex
    /\ 0 <= PresetIndex (g_Conf (Apply d w)) <= GetMaxPresetIndex.
Proof.
  intros Hwf Hmax Hkeep.
  destruct (run_spec (0, false) acts
              (AddPresetsControl d0 w0) w0 (AddPresetsControl_pages d0 w0 Hwf))
    as (d & w & Hrun & _ & Hok & _ & _).
  destruct (Hok Hmax (AddPresetsControl_slider_ok d0 w0 Hmax)) as (_ & _ & Hval).
  exists d, w. split; [exact Hrun|]. split; [reflexivity|]. split; [exact Hval|].
  unfold Apply. destruct (MainFramePtr w) as [frame|]; [|exact Hval].
  pose proof (Hkeep frame
                (set_PresetIndex (set_EnablePresets (g_Conf w) (m_check_presets d))
                   (wxSlider_GetValue (m_slider_presets d)))) as Hi.
  destruct (CommitPreset_noTrigger frame _) as [frame' conf'].
  simpl in *. rewrite Hi. exact Hval.
Qed.

(** C4 (amended). [Cancel] hands the main frame [g_Conf] itself, as it
    stands: one call, with the store's own [PresetIndex] and the store's own
    [EnablePresets] (true exactly when the store has presets enabled), and
    the store is not assigned. *)
Theorem cancel_rebroadcasts_store d w frame :
  MainFramePtr w = Some frame ->
  calls (Cancel d w) = calls w ++ [Call_MainFrame_ApplyConfigToGui (g_Conf w) preset_flags]
  /\ menu_snapshots (calls (Cancel d w)) = menu_snapshots (calls w) ++ [g_Conf w]
  /\ MainFramePtr (Cancel d w)
     = Some (MainFrame_ApplyConfigToGui frame (g_Conf w) preset_flags)
  /\ g_Conf (Cancel d w) = g_Conf w.
Proof.
  intros Hf. unfold Cancel. rewrite Hf. simpl.
  rewrite menu_snapshots_app. auto.
Qed.

(** C9 (amended). [Apply]'s own assignments set [EnablePresets] and
    [PresetIndex] from the two controls and leave every other field; without
    a main frame that is the store [Apply] leaves, and with one the store is
    what [CommitPreset_noTrigger] makes of it. *)
Theorem apply_assigns_two_fields_then_commits d w :
  EnablePresets (applied_conf d (g_Conf w)) = m_check_presets d
  /\ PresetIndex (applied_conf d (g_Conf w)) = wxSlider_GetValue (m_slider_presets d)
  /\ OtherSettings (applied_conf d (g_Conf w)) = OtherSettings (g_Conf w)
  /\ (MainFramePtr w = None -> g_Conf (Apply d w) = applied_conf d (g_Conf w))
  /\ (forall frame, MainFramePtr w = Some frame ->
        g_Conf (Apply d w)
        = snd (CommitPreset_noTrigger frame (applied_conf d (g_Conf w)))).
Proof.
  repeat split.
  - intros Hf. unfold Apply. now rewrite Hf.
  - intros frame Hf. unfold Apply. rewrite Hf.
    unfold applied_conf, set_PresetIndex, set_EnablePresets. simpl.
    now destruct (CommitPreset_noTrigger frame _).
Qed.

End Properties.

(** * Further properties of the dialog *)

Section MoreProperties.
Context {Conf : AppConfigApi} {Panels : ConfigPanelApi} {Frame : MainFrameApi}.

Implicit Types (d : SysConfigDialog) (w : World) (book : list Page)
  (conf preset : AppConfig Settings) (log : list Call).

(** ** The loop bound is the number of labels *)

(** [UpdateGuiForPreset] when the labels are at most as many as the pages:
    only the first [m_labels.GetCount()] pages are visited. *)
Lemma UpdateGuiForPreset_returns_prefix d i e w book :
  m_listbook d = Some book ->
  (length (m_labels d) <= length book)%nat ->
  UpdateGuiForPreset d i e w
  = Returns
      (set_listbook d
         ((deliver (preview_snapshot (g_Conf w) i e) <$> take (length (m_labels d)) book)
          ++ drop (length (m_labels d)) book),
       mkWorld (g_Conf w)
         ((fun frame => MainFrame_ApplyConfigToGui frame
             (set_EnablePresets (preview_snapshot (g_Conf w) i e) true) preset_flags)
            <$> MainFramePtr w)
         (calls w ++ preview_calls (take (length (m_labels d)) book)
                       (MainFramePtr w) (g_Conf w) i e)).
Proof.
  intros Hb Hlen. unfold UpdateGuiForPreset. rewrite Hb.
  pose proof (UpdateGuiForPreset_loop_spec
                (preview_snapshot (g_Conf w) i e) (length (m_labels d)) [] book
                (calls w ++ [Call_UpdateGuiForPreset i e]) Hlen) as Hl.
  simpl in Hl. unfold preview_snapshot in Hl. simpl. rewrite Hl.
  unfold preview_calls, preview_snapshot.
  destruct w as [conf [frame|] log]; simpl;
    rewrite <- ?app_assoc; simpl; rewrite ?app_nil_r; reflexivity.
Qed.

(** X1. With a listbook, [UpdateGuiForPreset] returns exactly when the
    labels are at most as many as the pages; a label beyond the last page
    sends the loop to a page that is not there. *)
Theorem preview_returns_iff_labels_have_pages d i e w book :
  m_listbook d = Some book ->
  (exists d' w', UpdateGuiForPreset d i e w = Returns (d', w'))
  <-> (length (m_labels d) <= length book)%nat.
Proof.
  intros Hb. split.
  - intros (d' & w' & Hr).
    destruct (le_lt_dec (length (m_labels d)) (length book)) as [Hle|Hlt]; [exact Hle|].
    rewrite (UpdateGuiForPreset_null_page d i e w book Hb Hlt) in Hr. discriminate.
  - intros Hle. rewrite (UpdateGuiForPreset_returns_prefix d i e w book Hb Hle). eauto.
Qed.

(** X2. The loop stops at the number of labels: a page whose index is below
    it is handed the snapshot when preset-aware, and a page at or beyond it is
    left as it was and is handed nothing, preset-aware or not. *)
Theorem pages_beyond_labels_are_skipped d i e w book :
  m_listbook d = Some book ->
  (length (m_labels d) <= length book)%nat ->
  exists d' w' evs book',
    UpdateGuiForPreset d i e w = Returns (d', w')
    /\ calls w' = calls w ++ evs
    /\ m_listbook d' = Some book'
    /\ length book' = length book
    /\ forall n p, book !! n = Some p ->
         ((n < length (m_labels d))%nat ->
            book' !! n = Some (deliver (preview_snapshot (g_Conf w) i e) p)
            /\ (IsSpecificConfig p = true ->
                In (n, preview_snapshot (g_Conf w) i e) (panel_snapshots evs)))
         /\ ((length (m_labels d) <= n)%nat ->
             book' !! n = Some p
             /\ forall c, ~ In (n, c) (panel_snapshots evs)).
Proof.
  intros Hb Hle.
  rewrite (UpdateGuiForPreset_returns_prefix d i e w book Hb Hle).
  eexists _, _, _, _. split; [reflexivity|]. split; [reflexivity|].
  split; [reflexivity|].
  assert (Htake : length (take (length (m_labels d)) book) = length (m_labels d))
    by (rewrite length_take; lia).
  split.
  { rewrite length_app, length_fmap, Htake, length_drop. lia. }
  intros n p Hp. rewrite panel_snapshots_preview_calls. split.
  - intros Hn. split.
    + rewrite lookup_app_l by (rewrite length_fmap; lia).
      rewrite list_lookup_fmap, lookup_take_lt by lia. now rewrite Hp.
    + intros Hs. apply in_panel_snapshots_page_calls.
      split; [reflexivity|]. exists p. split; [lia|].
      replace (n - 0)%nat with n by lia.
      rewrite lookup_take_lt by lia. auto.
  - intros Hn. split.
    + rewrite lookup_app_r by (rewrite length_fmap; lia).
      rewrite length_fmap, Htake, lookup_drop.
      now replace (length (m_labels d) + (n - length (m_labels d)))%nat with n by lia.
    + intros c Hin.
      apply in_panel_snapshots_page_calls in Hin as (_ & q & _ & Hq & _).
      replace (n - 0)%nat with n in Hq by lia.
      apply lookup_lt_Some in Hq. lia.
Qed.

(** ** The order of the calls *)

Lemma page_calls_indices preset :
  forall ps i,
    Forall (le i) (fst <$> panel_snapshots (page_calls preset i ps))
    /\ StronglySorted lt (fst <$> panel_snapshots (page_calls preset i ps)).
Proof.
  induction ps as [|p ps IH]; intros i; simpl.
  - split; constructor.
  - destruct (IH (S i)) as [Hge Hsorted].
    rewrite panel_snapshots_app, fmap_app.
    destruct (IsSpecificConfig p); simpl.
    + split.
      * constructor; [lia|]. eapply Forall_impl; [exact Hge|]. simpl. lia.
      * constructor; [exact Hsorted|].
        eapply Forall_impl; [exact Hge|]. simpl. lia.
    + split; [|exact Hsorted].
      eapply Forall_impl; [exact Hge|]. simpl. lia.
Qed.

Lemma StronglySorted_lt_NoDup (l : list nat) : StronglySorted lt l -> NoDup l.
Proof.
  induction 1 as [|n l _ IH Hall]; constructor; [|exact IH].
  intros Hin. rewrite Forall_forall in Hall. specialize (Hall n Hin). lia.
Qed.

(** X3. One [UpdateGuiForPreset] calls the pages in the order of their
    index and each page at most once, and the call on the main frame, when
    there is one, comes last. *)
Theorem preview_calls_each_page_once_in_order d w i e :
  pages_match_labels d ->
  exists d' w' evs,
    UpdateGuiForPreset d i e w = Returns (d', w')
    /\ calls w' = calls w ++ evs
    /\ head evs = Some (Call_UpdateGuiForPreset i e)
    /\ StronglySorted lt (fst <$> panel_snapshots evs)
    /\ NoDup (fst <$> panel_snapshots evs)
    /\ (forall book frame,
          m_listbook d = Some book -> MainFramePtr w = Some frame ->
          last evs
          = Some (Call_MainFrame_ApplyConfigToGui
                    (set_EnablePresets (preview_snapshot (g_Conf w) i e) true)
                    preset_flags)).
Proof.
  unfold pages_match_labels. intros Hwf.
  destruct (m_listbook d) as [book|] eqn:Hb.
  - rewrite (UpdateGuiForPreset_returns d i e w book Hb Hwf).
    eexists _, _, _. split; [reflexivity|]. split; [reflexivity|].
    split; [reflexivity|].
    rewrite panel_snapshots_preview_calls.
    destruct (page_calls_indices (preview_snapshot (g_Conf w) i e) book 0%nat)
      as [_ Hsorted].
    split; [exact Hsorted|]. split; [now apply StronglySorted_lt_NoDup|].
    intros book' frame _ Hf. rewrite Hf. unfold preview_calls. simpl menu_call.
    rewrite app_comm_cons. apply last_snoc.
  - rewrite (UpdateGuiForPreset_no_listbook d i e w Hb).
    eexists _, _, _. split; [reflexivity|]. split; [reflexivity|].
    split; [reflexivity|]. simpl.
    split; [constructor|]. split; [constructor|]. intros book frame [=].
Qed.

(** ** The flags *)

Lemma preset_flags_bits :
  Z.land preset_flags APPLY_FLAG_FROM_PRESET = APPLY_FLAG_FROM_PRESET
  /\ Z.land preset_flags APPLY_FLAG_MANUALLY_PROPAGATE = APPLY_FLAG_MANUALLY_PROPAGATE.
Proof.
  unfold preset_flags. split; apply Z.bits_inj'; intros n _;
    rewrite Z.land_spec, Z.lor_spec;
    destruct (Z.testbit APPLY_FLAG_FROM_PRESET n),
             (Z.testbit APPLY_FLAG_MANUALLY_PROPAGATE n); reflexivity.
Qed.

Lemma call_flags_page_calls preset c f :
  forall ps i, In c (page_calls preset i ps) -> call_flags c = Some f -> f = preset_flags.
Proof.
  induction ps as [|p ps IH]; intros i; simpl; [intros []|].
  rewrite in_app_iff. intros [Hin|Hin] Hf; [|eauto].
  destruct (IsSpecificConfig p); simpl in Hin; [|contradiction].
  destruct Hin as [<-|[]]. simpl in Hf. congruence.
Qed.

(** X8. Every call [UpdateGuiForPreset] and [Cancel] make on a page or on the
    main frame passes the same flags word, in which the bits of
    [APPLY_FLAG_FROM_PRESET] and of [APPLY_FLAG_MANUALLY_PROPAGATE] are both
    set: a receiver that masks the word with either flag finds it. *)
Theorem every_broadcast_carries_both_flags d w i e :
  pages_match_labels d ->
  exists d' w' evs evs',
    UpdateGuiForPreset d i e w = Returns (d', w')
    /\ calls w' = calls w ++ evs
    /\ calls (Cancel d w) = calls w ++ evs'
    /\ forall c f, In c (evs ++ evs') -> call_flags c = Some f ->
         f = preset_flags
         /\ Z.land f APPLY_FLAG_FROM_PRESET = APPLY_FLAG_FROM_PRESET
         /\ Z.land f APPLY_FLAG_MANUALLY_PROPAGATE = APPLY_FLAG_MANUALLY_PROPAGATE.
Proof.
  unfold pages_match_labels. intros Hwf.
  assert (Hcancel : exists evs', calls (Cancel d w) = calls w ++ evs'
            /\ forall c f, In c evs' -> call_flags c = Some f -> f = preset_flags).
  { unfold Cancel. destruct (MainFramePtr w) as [frame|]; simpl.
    - eexists. split; [reflexivity|]. intros c f [<-|[]] Hf. simpl in Hf. congruence.
    - exists []. split; [now rewrite app_nil_r|]. intros c f []. }
  destruct Hcancel as (evs' & Hc & Hflags').
  assert (Hpreview : exists d' w' evs,
            UpdateGuiForPreset d i e w = Returns (d', w')
            /\ calls w' = calls w ++ evs
            /\ forall c f, In c evs -> call_flags c = Some f -> f = preset_flags).
  { destruct (m_listbook d) as [book|] eqn:Hb.
    - rewrite (UpdateGuiForPreset_returns d i e w book Hb Hwf).
      eexists _, _, _. split; [reflexivity|]. split; [reflexivity|].
      intros c f Hin Hf. unfold preview_calls in Hin.
      destruct Hin as [<-|Hin]; [discriminate|].
      apply in_app_iff in Hin as [Hin|Hin].
      + eapply call_flags_page_calls; eassumption.
      + destruct (MainFramePtr w); simpl in Hin; [|contradiction].
        destruct Hin as [<-|[]]. simpl in Hf. congruence.
    - rewrite (UpdateGuiForPreset_no_listbook d i e w Hb).
      eexists _, _, _. split; [reflexivity|]. split; [reflexivity|].
      intros c f [<-|[]]. discriminate. }
  destruct Hpreview as (d' & w' & evs & Hr & Hcalls & Hflags).
  exists d', w', evs, evs'. split; [exact Hr|]. split; [exact Hcalls|].
  split; [exact Hc|]. intros c f Hin Hf.
  assert (f = preset_flags) as ->
    by (apply in_app_iff in Hin as [Hin|Hin]; eauto).
  split; [reflexivity|]. apply preset_flags_bits.
Qed.

(** ** Checked or not, the menus see the same *)



(** ** What a preview keeps *)

Lemma preview_count_app log1 log2 :
  preview_count (log1 ++ log2) = (preview_count log1 + preview_count log2)%nat.
Proof.
  induction log1 as [|c log1 IH]; simpl; [reflexivity|].
  destruct c; simpl; now rewrite IH.
Qed.

Lemma preview_count_page_calls preset frame :
  forall ps k, preview_count (page_calls preset k ps ++ menu_call frame preset) = 0%nat.
Proof.
  induction ps as [|p ps IH]; intros k; simpl.
  - now destruct frame.
  - destruct (IsSpecificConfig p); simpl; apply IH.
Qed.

Lemma preview_count_preview_calls book frame conf i e :
  preview_count (preview_calls book frame conf i e) = 1%nat.
Proof.
  unfold preview_calls. simpl. now rewrite preview_count_page_calls.
Qed.

Lemma page_classes_deliver preset book :
  IsSpecificConfig <$> (deliver preset <$> book) = IsSpecificConfig <$> book.
Proof.
  rewrite <- list_fmap_compose. apply list_fmap_ext.
  intros k p _. apply IsSpecificConfig_deliver.
Qed.

(** One [UpdateGuiForPreset] on a dialog whose labels have their pages:
    everything it leaves as it was. *)
Lemma UpdateGuiForPreset_keeps d i e w :
  pages_match_labels d ->
  exists d' w',
    UpdateGuiForPreset d i e w = Returns (d', w')
    /\ pages_match_labels d'
    /\ m_labels d' = m_labels d
    /\ m_slider_presets d' = m_slider_presets d
    /\ m_check_presets d' = m_check_presets d
    /\ m_msg_preset d' = m_msg_preset d
    /\ page_classes d' = page_classes d
    /\ g_Conf w' = g_Conf w
    /\ (MainFramePtr w' = None <-> MainFramePtr w = None)
    /\ preview_count (calls w') = S (preview_count (calls w)).
Proof.
  unfold pages_match_labels, page_classes. intros Hwf.
  destruct (m_listbook d) as [book|] eqn:Hb.
  - rewrite (UpdateGuiForPreset_returns d i e w book Hb Hwf).
    eexists _, _. split; [reflexivity|]. simpl.
    rewrite length_fmap, page_classes_deliver, preview_count_app,
      preview_count_preview_calls.
    repeat split; try assumption; try lia;
      destruct (MainFramePtr w); simpl; congruence.
  - rewrite (UpdateGuiForPreset_no_listbook d i e w Hb).
    eexists _, _. split; [reflexivity|]. rewrite Hb. simpl.
    rewrite preview_count_app. simpl.
    repeat split; try assumption; try lia; auto.
Qed.

(** One user action. *)
Lemma dispatch_keeps a d w :
  pages_match_labels d ->
  exists d' w',
    dispatch a d w = Returns (d', w')
    /\ pages_match_labels d'
    /\ m_labels d' = m_labels d
    /\ page_classes d' = page_classes d
    /\ g_Conf w' = g_Conf w
    /\ (MainFramePtr w' = None <-> MainFramePtr w = None)
    /\ preview_count (calls w') = S (preview_count (calls w))
    /\ (controls_enabled_as_checked d -> controls_enabled_as_checked d')
    /\ (label_describes_slider d -> label_describes_slider d').
Proof.
  intros Hwf. destruct a as [position|]; simpl.
  - unfold Preset_Scroll.
    destruct (snd (isOkGetPresetTextAndColor _ _ _)) as [pl c] eqn:Htext.
    match goal with |- context [UpdateGuiForPreset ?d1 ?i ?e w] =>
      destruct (UpdateGuiForPreset_keeps d1 i e w)
        as (d' & w' & -> & Hwf' & Hl & Hs & Hk & Hm & Hp & Hc & Hf & Hn)
    end; [exact Hwf|].
    exists d', w'. split; [reflexivity|].
    split; [exact Hwf'|]. split; [exact Hl|]. split; [exact Hp|].
    split; [exact Hc|]. split; [exact Hf|]. split; [exact Hn|]. split.
    + unfold controls_enabled_as_checked. rewrite Hs, Hk, Hm. simpl. tauto.
    + intros _. exists wxNullColour. rewrite Hs, Hm. simpl.
      simpl in Htext. now rewrite Htext.
  - unfold Presets_Toggled.
    match goal with |- context [UpdateGuiForPreset ?d1 ?i ?e w] =>
      destruct (UpdateGuiForPreset_keeps d1 i e w)
        as (d' & w' & -> & Hwf' & Hl & Hs & Hk & Hm & Hp & Hc & Hf & Hn)
    end; [exact Hwf|].
    exists d', w'. split; [reflexivity|].
    split; [exact Hwf'|]. split; [exact Hl|]. split; [exact Hp|].
    split; [exact Hc|]. split; [exact Hf|]. split; [exact Hn|]. split.
    + intros _. unfold controls_enabled_as_checked. rewrite Hs, Hk, Hm. simpl. tauto.
    + intros (c0 & Hc0). exists c0. rewrite Hs, Hm. simpl. exact Hc0.
Qed.

(** Any sequence of user actions. *)
Lemma run_keeps acts :
  forall d w,
    pages_match_labels d ->
    exists d' w',
      run acts d w = Returns (d', w')
      /\ m_labels d' = m_labels d
      /\ page_classes d' = page_classes d
      /\ g_Conf w' = g_Conf w
      /\ (MainFramePtr w' = None <-> MainFramePtr w = None)
      /\ preview_count (calls w') = (preview_count (calls w) + length acts)%nat
      /\ (controls_enabled_as_checked d -> controls_enabled_as_checked d')
      /\ (label_describes_slider d -> label_describes_slider d').
Proof.
  induction acts as [|a acts IH]; intros d w Hwf; simpl.
  - exists d, w. split; [reflexivity|]. split; [reflexivity|].
    split; [reflexivity|]. split; [reflexivity|]. split; [tauto|].
    split; [lia|]. split; auto.
  - destruct (dispatch_keeps a d w Hwf)
      as (d1 & w1 & -> & Hwf1 & Hl1 & Hp1 & Hc1 & Hf1 & Hn1 & He1 & Ht1). simpl.
    destruct (IH d1 w1 Hwf1)
      as (d' & w' & Hrun & Hl & Hp & Hc & Hf & Hn & He & Ht).
    exists d', w'. split; [exact Hrun|].
    split; [congruence|]. split; [congruence|]. split; [congruence|].
    split; [tauto|]. split; [lia|]. split; auto.
Qed.

(** ** The controls during a session *)

Lemma AddPresetsControl_msg d w :
  m_msg_preset (AddPresetsControl d w)
  = mkStaticText
      (fst (snd (isOkGetPresetTextAndColor (PresetIndex (g_Conf w)) "" (wxColour "Red"))))
      (snd (snd (isOkGetPresetTextAndColor (PresetIndex (g_Conf w)) "" (wxColour "Red"))))
      (EnablePresets (g_Conf w)).
Proof.
  unfold AddPresetsControl.
  now destruct (snd (isOkGetPresetTextAndColor _ _ _)).
Qed.

Lemma AddPresetsControl_enabled d w :
  controls_enabled_as_checked (AddPresetsControl d w).
Proof.
  unfold controls_enabled_as_checked.
  rewrite AddPresetsControl_slider, AddPresetsControl_check, AddPresetsControl_msg.
  simpl. auto.
Qed.

Lemma AddPresetsControl_label d w :
  0 <= PresetIndex (g_Conf w) <= GetMaxPresetIndex ->
  label_describes_slider (AddPresetsControl d w).
Proof.
  intros Hr. exists (wxColour "Red").
  rewrite AddPresetsControl_slider, AddPresetsControl_msg. simpl.
  rewrite slider_clamp_id by exact Hr.
  now destruct (snd (isOkGetPresetTextAndColor _ _ _)).
Qed.

(** X4. From the construction of the controls on, and after any sequence of
    slider and check-box events, the slider and the label are enabled exactly
    when the presets box is checked. *)
Theorem controls_enabled_follow_checkbox d0 w0 acts :
  pages_match_labels d0 ->
  exists d w,
    run acts (AddPresetsControl d0 w0) w0 = Returns (d, w)
    /\ slider_enabled (m_slider_presets d) = m_check_presets d
    /\ text_enabled (m_msg_preset d) = m_check_presets d.
Proof.
  intros Hwf.
  destruct (run_keeps acts (AddPresetsControl d0 w0) w0 (AddPresetsControl_pages d0 w0 Hwf))
    as (d & w & Hrun & _ & _ & _ & _ & _ & He & _).
  exists d, w. split; [exact Hrun|]. apply He, AddPresetsControl_enabled.
Qed.

(** X5. Opened on a store whose index is in range, the label beside the
    slider shows, after any sequence of events, the text and the colour of
    the slider's current position. *)
Theorem label_follows_slider d0 w0 acts :
  pages_match_labels d0 ->
  0 <= PresetIndex (g_Conf w0) <= GetMaxPresetIndex ->
  exists d w,
    run acts (AddPresetsControl d0 w0) w0 = Returns (d, w)
    /\ exists c0,
         (text_label (m_msg_preset d), text_colour (m_msg_preset d))
         = snd (isOkGetPresetTextAndColor (wxSlider_GetValue (m_slider_presets d)) "" c0).
Proof.
  intros Hwf Hr.
  destruct (run_keeps acts (AddPresetsControl d0 w0) w0 (AddPresetsControl_pages d0 w0 Hwf))
    as (d & w & Hrun & _ & _ & _ & _ & _ & _ & Ht).
  exists d, w. split; [exact Hrun|]. now apply Ht, AddPresetsControl_label.
Qed.

(** X6. What [Apply] writes, [AddPresetsControl] reads back: a dialog built
    on the store [Apply] left shows the slider position and the check mark of
    the dialog that was applied (the position being within the preset range
    and the main frame's commit leaving the two preset fields alone). *)
Theorem apply_then_reopen_shows_same_controls d d1 w :
  0 <= wxSlider_GetValue (m_slider_presets d) <= GetMaxPresetIndex ->
  (forall frame conf,
     PresetIndex (snd (CommitPreset_noTrigger frame conf)) = PresetIndex conf
     /\ EnablePresets (snd (CommitPreset_noTrigger frame conf)) = EnablePresets conf) ->
  widget_values (AddPresetsControl d1 (Apply d w)) = widget_values d
  /\ slider_enabled (m_slider_presets (AddPresetsControl d1 (Apply d w)))
     = m_check_presets d.
Proof.
  intros Hr Hkeep.
  assert (Hstore : PresetIndex (g_Conf (Apply d w)) = wxSlider_GetValue (m_slider_presets d)
                   /\ EnablePresets (g_Conf (Apply d w)) = m_check_presets d).
  { unfold Apply. destruct (MainFramePtr w) as [frame|]; [|split; reflexivity].
    destruct (Hkeep frame
                (set_PresetIndex (set_EnablePresets (g_Conf w) (m_check_presets d))
                   (wxSlider_GetValue (m_slider_presets d)))) as [Hi He].
    destruct (CommitPreset_noTrigger frame _) as [frame' conf'].
    simpl in *. now rewrite Hi, He. }
  destruct Hstore as [Hi He]. split.
  - rewrite AddPresetsControl_values by (rewrite Hi; exact Hr).
    unfold widget_values. now rewrite Hi, He.
  - rewrite AddPresetsControl_slider. simpl. exact He.
Qed.

(** X7. Whatever was previewed, [Cancel] hands the main frame the store as
    it was when the previews began, which is also the store it leaves: the
    last configuration the menus are shown is the unchanged [g_Conf]. *)
Theorem cancel_after_previews_restores_menus d w frame acts :
  pages_match_labels d ->
  MainFramePtr w = Some frame ->
  exists d' w' frame',
    run acts d w = Returns (d', w')
    /\ MainFramePtr w' = Some frame'
    /\ g_Conf (Cancel d' w') = g_Conf w
    /\ MainFramePtr (Cancel d' w')
       = Some (MainFrame_ApplyConfigToGui frame' (g_Conf w) preset_flags)
    /\ last (menu_snapshots (calls (Cancel d' w'))) = Some (g_Conf w).
Proof.
  intros Hwf Hf.
  destruct (run_keeps acts d w Hwf) as (d' & w' & Hrun & _ & _ & Hc & Hnone & _).
  destruct (MainFramePtr w') as [frame'|] eqn:Hf'.
  - exists d', w', frame'. split; [exact Hrun|]. split; [exact Hf'|].
    unfold Cancel. rewrite Hf'. simpl. rewrite Hc.
    split; [reflexivity|]. split; [reflexivity|].
    rewrite menu_snapshots_app. simpl. apply last_snoc.
  - destruct Hnone as [Hnone _]. rewrite Hnone in Hf by reflexivity. discriminate.
Qed.

(** X10. Every user action runs [UpdateGuiForPreset] exactly once: after a
    sequence of actions the number of previews has grown by its length. *)
Theorem every_action_previews_once d w acts :
  pages_match_labels d ->
  exists d' w',
    run acts d w = Returns (d', w')
    /\ preview_count (calls w') = (preview_count (calls w) + length acts)%nat.
Proof.
  intros Hwf.
  destruct (run_keeps acts d w Hwf) as (d' & w' & Hrun & _ & _ & _ & _ & Hn & _).
  now exists d', w'.
Qed.

(** X11. Previews never add, remove or reclassify a page and never touch the
    labels: after any sequence of actions the listbook has the same number of
    pages, each of the class it had, and the labels are the same. *)
Theorem previews_keep_pages_and_labels d w acts :
  pages_match_labels d ->
  exists d' w',
    run acts d w = Returns (d', w')
    /\ m_labels d' = m_labels d
    /\ (fun book : list Page => IsSpecificConfig <$> book) <$> m_listbook d'
       = (fun book : list Page => IsSpecificConfig <$> book) <$> m_listbook d
    /\ (fun book : list Page => length book) <$> m_listbook d'
       = (fun book : list Page => length book) <$> m_listbook d.
Proof.
  intros Hwf.
  destruct (run_keeps acts d w Hwf) as (d' & w' & Hrun & Hl & Hp & _).
  exists d', w'. split; [exact Hrun|]. split; [exact Hl|].
  unfold page_classes in Hp. split; [exact Hp|].
  destruct (m_listbook d') as [book'|], (m_listbook d) as [book|];
    simpl in *; try discriminate; [|reflexivity].
  injection Hp as Hp. f_equal.
  rewrite <- (length_fmap IsSpecificConfig book'), Hp. apply length_fmap.
Qed.

End MoreProperties.

(** * The statements on the implementation of [Model] *)

#[local] Existing Instances Model.appconfig Model.panels Model.frame.

(** The second scenario of the specification: the store holds preset 1 with
    presets enabled; the user drags the slider to 3 and unchecks the box (the
    last preview is of 3, false), then applies. *)
Example scenario_preview_then_apply :
  exists d w,
    run [DragSlider 3; ClickCheckbox] (Model.dialog true) (Model.world true) = Returns (d, w)
    /\ g_Conf w = Model.store true
    /\ last_preview (calls w) = Some (3, false)
    /\ g_Conf (Apply d w) = mkAppConfig false 3 (Model.mkEmuSettings true 0).
Proof. eexists _, _. split; [vm_compute; reflexivity|]. repeat split. Qed.

(** A label without its page: the loop of [UpdateGuiForPreset] reaches a
    null page. *)
Example scenario_label_without_page :
  UpdateGuiForPreset
    (mkDialog (Some Model.book) ("Extra"%string :: Model.labels)
       (wxSlider_new 1 0 5) true (mkStaticText "" wxNullColour true))
    3 false (Model.world true)
  = NullDeref.
Proof. reflexivity. Qed.

Lemma preview_and_cancel_keep_store_witness :
  (exists d' w',
     UpdateGuiForPreset (Model.dialog true) 3 false (Model.world true) = Returns (d', w')
     /\ g_Conf w' = g_Conf (Model.world true))
  /\ g_Conf (Cancel (Model.dialog true) (Model.world true)) = g_Conf (Model.world true)
  /\ (exists d' w',
        run [DragSlider 3; ClickCheckbox] (Model.dialog true) (Model.world true)
        = Returns (d', w')
        /\ g_Conf w' = g_Conf (Model.world true)).
Proof.
  apply (preview_and_cancel_keep_store (Model.dialog true) (Model.world true) 3 false
           [DragSlider 3; ClickCheckbox]).
  vm_compute. reflexivity.
Defined.

Lemma apply_writes_last_preview_witness :
  exists d w,
    run [DragSlider 3; ClickCheckbox]
        (AddPresetsControl Model.shell (Model.world true)) (Model.world true)
    = Returns (d, w)
    /\ (PresetIndex (g_Conf (Apply d w)), EnablePresets (g_Conf (Apply d w)))
       = default (1, true) (last_preview (calls w))
    /\ (forall frame, MainFramePtr w = Some frame ->
          calls (Apply d w) = calls w ++ [Call_MainFrame_CommitPreset_noTrigger]
          /\ MainFramePtr (Apply d w)
             = Some (fst (CommitPreset_noTrigger frame (applied_conf d (g_Conf w))))
          /\ g_Conf (Apply d w)
             = snd (CommitPreset_noTrigger frame (applied_conf d (g_Conf w)))).
Proof.
  apply (apply_writes_last_preview Model.shell (Model.world true)
           [DragSlider 3; ClickCheckbox]).
  - vm_compute. reflexivity.
  - reflexivity.
  - simpl. lia.
  - intros frame conf. split; reflexivity.
Defined.

Lemma menu_snapshot_enables_presets_witness :
  exists d' w' evs,
    UpdateGuiForPreset (Model.dialog true) 3 false (Model.world true) = Returns (d', w')
    /\ calls w' = calls (Model.world true) ++ evs
    /\ (forall c, In c (menu_snapshots evs) ->
          EnablePresets c = true
          /\ PresetIndex c = PresetIndex (preview_snapshot (Model.store true) 3 false)
          /\ OtherSettings c = OtherSettings (preview_snapshot (Model.store true) 3 false))
    /\ (forall n c, In (n, c) (panel_snapshots evs) ->
          c = preview_snapshot (Model.store true) 3 false)
    /\ (forall book frame,
          m_listbook (Model.dialog true) = Some book ->
          MainFramePtr (Model.world true) = Some frame ->
          menu_snapshots evs = [set_EnablePresets (preview_snapshot (Model.store true) 3 false) true]
          /\ MainFramePtr w'
             = Some (MainFrame_ApplyConfigToGui frame
                       (set_EnablePresets (preview_snapshot (Model.store true) 3 false) true)
                       preset_flags)).
Proof.
  apply (menu_snapshot_enables_presets (Model.dialog true) (Model.world true) 3 false).
  vm_compute. reflexivity.
Defined.

Lemma cancel_rebroadcasts_store_witness :
  calls (Cancel (Model.dialog true) (Model.world true))
  = [Call_MainFrame_ApplyConfigToGui (Model.store true) preset_flags]
  /\ menu_snapshots (calls (Cancel (Model.dialog true) (Model.world true)))
     = [mkAppConfig true 1 (Model.mkEmuSettings false 0)]
  /\ MainFramePtr (Cancel (Model.dialog true) (Model.world true))
     = Some (MainFrame_ApplyConfigToGui (Model.mkMenu false true) (Model.store true) preset_flags)
  /\ g_Conf (Cancel (Model.dialog true) (Model.world true)) = Model.store true.
Proof.
  apply (cancel_rebroadcasts_store (Model.dialog true) (Model.world true)
           (Model.mkMenu false true)).
  reflexivity.
Defined.

(** C4, as stated, fails: with presets disabled in the store, the
    configuration [Cancel] hands to the main frame has [EnablePresets] false;
    nothing forces it to true. *)
Lemma cancel_does_not_force_enable :
  exists c,
    menu_snapshots (calls (Cancel (Model.dialog false) (Model.world false))) = [c]
    /\ c = Model.store false
    /\ EnablePresets c = false.
Proof. eexists. repeat split. Qed.

Lemma panel_snapshot_is_preset_then_flag_witness :
  exists d' w' evs,
    UpdateGuiForPreset (Model.dialog true) 3 false (Model.world true) = Returns (d', w')
    /\ calls w' = calls (Model.world true) ++ evs
    /\ (forall n p, Model.book !! n = Some p -> IsSpecificConfig p = true ->
          In (n, set_EnablePresets (snd (IsOkApplyPreset (Model.store true) 3 false)) false)
             (panel_snapshots evs))
    /\ (forall n c, In (n, c) (panel_snapshots evs) ->
          c = set_EnablePresets (snd (IsOkApplyPreset (Model.store true) 3 false)) false
          /\ PresetIndex c = 3
          /\ EnablePresets c = false
          /\ OtherSettings c = OtherSettings (snd (IsOkApplyPreset (Model.store true) 3 false))).
Proof.
  apply (panel_snapshot_is_preset_then_flag (Model.dialog true) (Model.world true) 3 false
           Model.book).
  - reflexivity.
  - reflexivity.
  - simpl. lia.
  - intros conf n _. reflexivity.
Defined.

Lemma snapshot_reaches_exactly_specific_pages_witness :
  exists d' w' evs book',
    UpdateGuiForPreset (Model.dialog true) 3 false (Model.world true) = Returns (d', w')
    /\ calls w' = calls (Model.world true) ++ evs
    /\ m_listbook d' = Some book'
    /\ length book' = length Model.book
    /\ forall n p, Model.book !! n = Some p ->
         ((exists c, In (n, c) (panel_snapshots evs)) <-> IsSpecificConfig p = true)
         /\ (IsSpecificConfig p = true ->
              In (n, preview_snapshot (Model.store true) 3 false) (panel_snapshots evs)
              /\ book' !! n = Some (Page_ApplyConfigToGui p
                                      (preview_snapshot (Model.store true) 3 false)
                                      preset_flags))
         /\ (IsSpecificConfig p = false -> book' !! n = Some p).
Proof.
  apply (snapshot_reaches_exactly_specific_pages (Model.dialog true) (Model.world true)
           3 false Model.book); reflexivity.
Defined.

Lemma preview_twice_same_broadcasts_witness :
  exists d1 w1 d2 w2 evs,
    UpdateGuiForPreset (Model.dialog true) 3 false (Model.world true) = Returns (d1, w1)
    /\ UpdateGuiForPreset d1 3 false w1 = Returns (d2, w2)
    /\ calls w1 = calls (Model.world true) ++ evs
    /\ calls w2 = calls w1 ++ evs.
Proof.
  apply (preview_twice_same_broadcasts (Model.dialog true) (Model.world true) 3 false).
  vm_compute. reflexivity.
Defined.

Lemma apply_keeps_preset_index_in_range_witness :
  exists d w,
    run [DragSlider 9; ClickCheckbox; DragSlider (-4)]
        (AddPresetsControl Model.shell (Model.world true)) (Model.world true)
    = Returns (d, w)
    /\ PresetIndex (applied_conf d (g_Conf w)) = wxSlider_GetValue (m_slider_presets d)
    /\ 0 <= wxSlider_GetValue (m_slider_presets d) <= 5
    /\ 0 <= PresetIndex (g_Conf (Apply d w)) <= 5.
Proof.
  apply (apply_keeps_preset_index_in_range Model.shell (Model.world true)
           [DragSlider 9; ClickCheckbox; DragSlider (-4)]).
  - vm_compute. reflexivity.
  - simpl. lia.
  - intros frame conf. reflexivity.
Defined.

(** C9, as stated, fails, on the example in the comment of
    [UpdateGuiForPreset]: patches and presets are off in the store; the user
    checks the presets box and unchecks it again (the menus now show patches
    on), then applies.  [g_Conf] leaves [Apply] with patches on, a field that
    is neither [EnablePresets] nor [PresetIndex]. *)
Lemma apply_changes_other_settings :
  exists d w,
    run [ClickCheckbox; ClickCheckbox] (Model.dialog false) (Model.world false)
    = Returns (d, w)
    /\ OtherSettings (g_Conf w) = Model.mkEmuSettings false 0
    /\ OtherSettings (g_Conf (Apply d w)) = Model.mkEmuSettings true 0
    /\ OtherSettings (g_Conf (Apply d w)) <> OtherSettings (g_Conf w).
Proof.
  eexists _, _. split; [vm_compute; reflexivity|].
  repeat split. discriminate.
Qed.

Lemma apply_assigns_two_fields_then_commits_witness :
  EnablePresets (applied_conf (Model.dialog true) (Model.store true)) = true
  /\ PresetIndex (applied_conf (Model.dialog true) (Model.store true)) = 1
  /\ OtherSettings (applied_conf (Model.dialog true) (Model.store true))
     = Model.mkEmuSettings false 0
  /\ (MainFramePtr Model.world_without_frame = None ->
      g_Conf (Apply (Model.dialog true) Model.world_without_frame)
      = applied_conf (Model.dialog true) (Model.store true))
  /\ (forall frame, MainFramePtr Model.world_without_frame = Some frame ->
        g_Conf (Apply (Model.dialog true) Model.world_without_frame)
        = snd (CommitPreset_noTrigger frame (applied_conf (Model.dialog true) (Model.store true)))).
Proof.
  exact (apply_assigns_two_fields_then_commits (Model.dialog true) Model.world_without_frame).
Defined.

Lemma missing_collaborators_are_skipped_witness :
  (exists w',
     UpdateGuiForPreset Model.dialog_without_listbook 3 false Model.world_without_frame
     = Returns (Model.dialog_without_listbook, w')
     /\ g_Conf w' = Model.store true
     /\ MainFramePtr w' = None
     /\ calls w' = [Call_UpdateGuiForPreset 3 false]
     /\ panel_snapshots (calls w') = []
     /\ menu_snapshots (calls w') = [])
  /\ Apply Model.dialog_without_listbook Model.world_without_frame
     = mkWorld (mkAppConfig true 1 (Model.mkEmuSettings false 0)) None []
  /\ Cancel Model.dialog_without_listbook Model.world_without_frame
     = Model.world_without_frame.
Proof.
  destruct (missing_collaborators_are_skipped
              Model.dialog_without_listbook Model.world_without_frame 3 false)
    as (Hpreview & Hframe & _).
  split; [exact (Hpreview eq_refl)|exact (Hframe eq_refl)].
Defined.

(** ** The further properties on the implementation of [Model] *)

(** A dialog with the eight pages and only the first three labels. *)
Example scenario_fewer_labels_than_pages :
  exists d' w',
    UpdateGuiForPreset
      (mkDialog (Some Model.book) (take 3 Model.labels)
         (wxSlider_new 1 0 5) true (mkStaticText "" wxNullColour true))
      3 false (Model.world true)
    = Returns (d', w')
    /\ fst <$> panel_snapshots (calls w') = [2%nat].
Proof. eexists _, _. split; [vm_compute; reflexivity|]. reflexivity. Qed.

Lemma preview_returns_iff_labels_have_pages_witness :
  (exists d' w',
     UpdateGuiForPreset (Model.dialog true) 3 false (Model.world true) = Returns (d', w'))
  <-> (length (m_labels (Model.dialog true)) <= length Model.book)%nat.
Proof.
  apply (preview_returns_iff_labels_have_pages (Model.dialog true) 3 false
           (Model.world true) Model.book).
  reflexivity.
Defined.

Lemma pages_beyond_labels_are_skipped_witness :
  exists d' w' evs book',
    UpdateGuiForPreset
      (mkDialog (Some Model.book) (take 3 Model.labels)
         (wxSlider_new 1 0 5) true (mkStaticText "" wxNullColour true))
      3 false (Model.world true)
    = Returns (d', w')
    /\ calls w' = calls (Model.world true) ++ evs
    /\ m_listbook d' = Some book'
    /\ length book' = length Model.book
    /\ forall n p, Model.book !! n = Some p ->
         ((n < 3)%nat ->
            book' !! n = Some (deliver (preview_snapshot (Model.store true) 3 false) p)
            /\ (IsSpecificConfig p = true ->
                In (n, preview_snapshot (Model.store true) 3 false) (panel_snapshots evs)))
         /\ ((3 <= n)%nat ->
             book' !! n = Some p
             /\ forall c, ~ In (n, c) (panel_snapshots evs)).
Proof.
  apply (pages_beyond_labels_are_skipped
           (mkDialog (Some Model.book) (take 3 Model.labels)
              (wxSlider_new 1 0 5) true (mkStaticText "" wxNullColour true))
           3 false (Model.world true) Model.book).
  - reflexivity.
  - vm_compute. lia.
Defined.

Lemma preview_calls_each_page_once_in_order_witness :
  exists d' w' evs,
    UpdateGuiForPreset (Model.dialog true) 3 false (Model.world true) = Returns (d', w')
    /\ calls w' = calls (Model.world true) ++ evs
    /\ head evs = Some (Call_UpdateGuiForPreset 3 false)
    /\ StronglySorted lt (fst <$> panel_snapshots evs)
    /\ NoDup (fst <$> panel_snapshots evs)
    /\ (forall book frame,
          m_listbook (Model.dialog true) = Some book ->
          MainFramePtr (Model.world true) = Some frame ->
          last evs
          = Some (Call_MainFrame_ApplyConfigToGui
                    (set_EnablePresets (preview_snapshot (Model.store true) 3 false) true)
                    preset_flags)).
Proof.
  apply (preview_calls_each_page_once_in_order (Model.dialog true) (Model.world true) 3 false).
  vm_compute. reflexivity.
Defined.

Lemma every_broadcast_carries_both_flags_witness :
  exists d' w' evs evs',
    UpdateGuiForPreset (Model.dialog true) 3 false (Model.world true) = Returns (d', w')
    /\ calls w' = calls (Model.world true) ++ evs
    /\ calls (Cancel (Model.dialog true) (Model.world true))
       = calls (Model.world true) ++ evs'
    /\ forall c f, In c (evs ++ evs') -> call_flags c = Some f ->
         f = 3 /\ Z.land f 1 = 1 /\ Z.land f 2 = 2.
Proof.
  apply (every_broadcast_carries_both_flags (Model.dialog true) (Model.world true) 3 false).
  vm_compute. reflexivity.
Defined.


Lemma controls_enabled_follow_checkbox_witness :
  exists d w,
    run [ClickCheckbox; DragSlider 4]
        (AddPresetsControl Model.shell (Model.world true)) (Model.world true)
    = Returns (d, w)
    /\ slider_enabled (m_slider_presets d) = m_check_presets d
    /\ text_enabled (m_msg_preset d) = m_check_presets d.
Proof.
  apply (controls_enabled_follow_checkbox Model.shell (Model.world true)
           [ClickCheckbox; DragSlider 4]).
  vm_compute. reflexivity.
Defined.

Lemma label_follows_slider_witness :
  exists d w,
    run [DragSlider 4; ClickCheckbox]
        (AddPresetsControl Model.shell (Model.world true)) (Model.world true)
    = Returns (d, w)
    /\ exists c0,
         (text_label (m_msg_preset d), text_colour (m_msg_preset d))
         = snd (isOkGetPresetTextAndColor (wxSlider_GetValue (m_slider_presets d)) "" c0).
Proof.
  apply (label_follows_slider Model.shell (Model.world true) [DragSlider 4; ClickCheckbox]).
  - vm_compute. reflexivity.
  - simpl. lia.
Defined.

Lemma apply_then_reopen_shows_same_controls_witness :
  widget_values (AddPresetsControl Model.shell (Apply (Model.dialog false) (Model.world true)))
  = widget_values (Model.dialog false)
  /\ slider_enabled
       (m_slider_presets
          (AddPresetsControl Model.shell (Apply (Model.dialog false) (Model.world true))))
     = m_check_presets (Model.dialog false).
Proof.
  apply (apply_then_reopen_shows_same_controls (Model.dialog false) Model.shell
           (Model.world true)).
  - change (0 <= 1 <= 5). lia.
  - intros frame conf. split; reflexivity.
Defined.

Lemma cancel_after_previews_restores_menus_witness :
  exists d' w' frame',
    run [DragSlider 3; ClickCheckbox] (Model.dialog true) (Model.world true)
    = Returns (d', w')
    /\ MainFramePtr w' = Some frame'
    /\ g_Conf (Cancel d' w') = Model.store true
    /\ MainFramePtr (Cancel d' w')
       = Some (MainFrame_ApplyConfigToGui frame' (Model.store true) preset_flags)
    /\ last (menu_snapshots (calls (Cancel d' w'))) = Some (Model.store true).
Proof.
  apply (cancel_after_previews_restores_menus (Model.dialog true) (Model.world true)
           (Model.mkMenu false true) [DragSlider 3; ClickCheckbox]).
  - vm_compute. reflexivity.
  - reflexivity.
Defined.

Lemma every_action_previews_once_witness :
  exists d' w',
    run [DragSlider 3; ClickCheckbox; ClickCheckbox] (Model.dialog true) (Model.world true)
    = Returns (d', w')
    /\ preview_count (calls w') = 3%nat.
Proof.
  apply (every_action_previews_once (Model.dialog true) (Model.world true)
           [DragSlider 3; ClickCheckbox; ClickCheckbox]).
  vm_compute. reflexivity.
Defined.

Lemma previews_keep_pages_and_labels_witness :
  exists d' w',
    run [DragSlider 3; ClickCheckbox] (Model.dialog true) (Model.world true)
    = Returns (d', w')
    /\ m_labels d' = Model.labels
    /\ (fun book : list Page => IsSpecificConfig <$> book) <$> m_listbook d'
       = Some [false; false; true; true; true; true; true; true]
    /\ (fun book : list Page => length book) <$> m_listbook d' = Some 8%nat.
Proof.
  apply (previews_keep_pages_and_labels (Model.dialog true) (Model.world true)
           [DragSlider 3; ClickCheckbox]).
  vm_compute. reflexivity.
Defined.
